(** * SimpleSubs: the order-date availability rules

    A shallow embedding of the date logic of the SimpleSubs ordering app:

    - [getScheduleIndex], [isSchoolDay] and [getDateOptions] from
      [constants/DataActions.js];
    - [getOrdersArr] from [screens/main/authenticated/HomeScreen.js].

    The code manipulates [moment.Moment] values.  The part of moment.js that
    the four functions call is modelled in [Module Moment]; the ambient clock
    [moment()] and the imported [Schedule] constant are explicit parameters of
    the functions that read them. *)

From Stdlib Require Import ZArith List Lia Bool Sorted Permutation.
From Stdlib Require String.
Import ListNotations.
Local Open Scope Z_scope.

(* ================================================================== *)
(** * Part I: the model                                                *)
(* ================================================================== *)

(** ** The moment.js operations used by the code

    A moment is represented by its local wall-clock time in milliseconds
    (the instant shifted by the zone's UTC offset).  The zone is taken to have
    a fixed offset, so that comparing instants and comparing wall-clock times
    coincide and every calendar day has [MS_PER_DAY] milliseconds.  All the
    numbers involved are integers far below 2^53, hence JS numbers are read
    as [Z]. *)
Module Moment.

Definition t := Z.

Definition MS_PER_DAY : Z := 86400000.

(** moment's [absFloor]: rounding toward zero ([Math.ceil] on negative
    numbers, [Math.floor] otherwise), applied to [num / den]. *)
Definition absFloor (num den : Z) : Z := Z.quot num den.

(** [a.diff(b)]: the difference in milliseconds. *)
Definition diff (a b : t) : Z := a - b.

(** [a.diff(b, "days")]: the difference in days, rounded toward zero. *)
Definition diff_days (a b : t) : Z := absFloor (a - b) MS_PER_DAY.

(** [m.add(n, "days")]. *)
Definition add_days (n : Z) (m : t) : t := m + n * MS_PER_DAY.

(** [m.startOf("day")]: local midnight of the day of [m]. *)
Definition startOf_day (m : t) : t := m - m mod MS_PER_DAY.

(** [a.isAfter(b)], [a.isBefore(b)], [a.isSameOrAfter(b)]. *)
Definition isAfter (a b : t) : bool := b <? a.

Definition isBefore (a b : t) : bool := a <? b.

Definition isSameOrAfter (a b : t) : bool := b <=? a.

End Moment.

(** Modelled from the spec: [constants/Date.js] is missing, and with it the
    constant [ISO_FORMAT].  The spec calls the result of formatting with it
    the canonical, comparable form of a calendar date (ISO 8601,
    "YYYY-MM-DD"); such a string determines and is determined by the calendar
    day, which is what stands for it here: the number of the day since the
    local epoch. *)
Definition IsoDate := Z.

(** [m.format(ISO_FORMAT)]. *)
Definition format_ISO (m : Moment.t) : IsoDate := m / Moment.MS_PER_DAY.

(** ** JavaScript helpers *)

(** [arr[i]] for a number [i]: [None] stands for [undefined], which is what
    an index that is negative or beyond the end yields. *)
Definition js_index {A : Type} (arr : list A) (i : Z) : option A :=
  if i <? 0 then None else nth_error arr (Z.to_nat i).

(** Truthiness of a value that is a boolean or [undefined]. *)
Definition truthy (v : option bool) : bool :=
  match v with
  | Some b => b
  | None => false
  end.

(** [arr.includes(x)] on ISO dates. *)
Definition includes (arr : list IsoDate) (x : IsoDate) : bool :=
  existsb (Z.eqb x) arr.

(** ** Schedules ([constants/Schedule.js] exports one) *)

(** [startDate] is a date string in the code; [diff] parses it, and the
    record holds the moment it denotes. *)
Record Schedule : Type := mkSchedule {
  startDate : Moment.t;
  values : list bool
}.

(** [date.diff(startDate, "days") % scheduleLength].  JS [%] is the
    truncating remainder [Z.rem] (for a non-zero divisor; the claims below all
    have a positive one). *)
Definition getScheduleIndex (date startDate : Moment.t) (scheduleLength : Z) : Z :=
  Z.rem (Moment.diff_days date startDate) scheduleLength.

Definition isSchoolDay (date : Moment.t) (schedule : Schedule) : option bool :=
  let scheduleIndex :=
    getScheduleIndex date (startDate schedule) (Z.of_nat (length (values schedule))) in
  js_index (values schedule) scheduleIndex.

(** The schedule of the spec's example: five school days, two days off. *)
Definition weekSchedule (anchor : Moment.t) : Schedule :=
  mkSchedule anchor [true; true; true; true; true; false; false].

(** ** Orders *)

(** An order, as the README describes it; [D] is the type of its [date]:
    a moment in the store, a display string on the home screen. *)
Record Order (D : Type) : Type := mkOrder {
  key : String.string;
  title : String.string;
  date : D;
  orderOptions : list (String.string * String.string)
}.

Arguments mkOrder {D} _ _ _ _.
Arguments key {D} _.
Arguments title {D} _.
Arguments date {D} _.
Arguments orderOptions {D} _.

(** The [orders] object of the state: its properties (order id, order) in
    enumeration order. *)
Definition Orders := list (String.string * Order Moment.t).

(** [Object.keys(o)] and [Object.values(o)]. *)
Definition Object_keys (o : Orders) : list String.string := map fst o.

Definition Object_values (o : Orders) : list (Order Moment.t) := map snd o.

(** [o[id]]; [None] stands for [undefined]. *)
Fixpoint js_get (o : Orders) (id : String.string) : option (Order Moment.t) :=
  match o with
  | [] => None
  | (k, v) :: rest => if String.eqb k id then Some v else js_get rest id
  end.

(** ** [getDateOptions] (DataActions.js) *)

(** [Object.keys(orders).map((id) => orders[id].date.format(ISO_FORMAT))];
    every [id] comes from the keys, so that [orders[id]] is never
    [undefined]. *)
Definition orderDatesOf (orders : Orders) : list IsoDate :=
  flat_map (fun id =>
              match js_get orders id with
              | Some order => [format_ISO (date order)]
              | None => []
              end)
           (Object_keys orders).

(** Lines 201-204: [let date = moment(); if (date.isAfter(cutoffTime))
    date.add(1, "days")], with the clock reading [now] made explicit. *)
Definition scanStart (now cutoffTime : Moment.t) : Moment.t :=
  let date := now in
  if Moment.isAfter date cutoffTime then Moment.add_days 1 date else date.

(** The number of days [getDateOptions] looks ahead (the bound of its loop). *)
Definition WINDOW : nat := 14.

Section DateOptions.

(** [toReadable] and [toISO] come from the missing [constants/Date.js];
    they are parameters here, as are the types of display dates and of the
    focused order's date. *)
Variable Readable : Type.
Variable toReadable : IsoDate -> Readable.
Variable FocusDate : Type.
Variable toISO : FocusDate -> IsoDate.

(** [focusedOrder && toISO(focusedOrder.date) === isoDate]; [None] is a
    [focusedOrder] that is [null] or [undefined]. *)
Definition focusedOn (focusedOrder : option (Order FocusDate)) (isoDate : IsoDate) : bool :=
  match focusedOrder with
  | Some order => toISO (date order) =? isoDate
  | None => false
  end.

(** The loop of lines 205-215, with [n] iterations left to run: [date] and
    [dateOptions] are its two mutable variables. *)
Fixpoint scanLoop (schedule : Schedule) (orderDates : list IsoDate)
    (focusedOrder : option (Order FocusDate))
    (n : nat) (date : Moment.t) (dateOptions : list Readable) : list Readable :=
  match n with
  | O => dateOptions
  | S n' =>
      let isoDate := format_ISO date in
      let dateOptions :=
        if truthy (isSchoolDay date schedule)
           && (negb (includes orderDates isoDate) || focusedOn focusedOrder isoDate)
        then dateOptions ++ [toReadable isoDate]
        else dateOptions in
      scanLoop schedule orderDates focusedOrder n' (Moment.add_days 1 date) dateOptions
  end.

Definition getDateOptions (now : Moment.t) (schedule : Schedule)
    (orders : Orders) (focusedOrder : option (Order FocusDate))
    (cutoffTime : Moment.t) : list Readable :=
  let orderDates := orderDatesOf orders in
  let dateOptions := [] in
  let date := scanStart now cutoffTime in
  scanLoop schedule orderDates focusedOrder WINDOW date dateOptions.

End DateOptions.

Arguments focusedOn {FocusDate} toISO focusedOrder isoDate.
Arguments scanLoop {Readable} toReadable {FocusDate} toISO
  schedule orderDates focusedOrder n date dateOptions.
Arguments getDateOptions {Readable} toReadable {FocusDate} toISO
  now schedule orders focusedOrder cutoffTime.

(** ** [getOrdersArr] (HomeScreen.js) *)

(** [arr.sort(compare)]: the sort is stable, and [compare(a, b) <= 0] keeps
    [a] before [b].  Insertion from the right end realises it. *)
Fixpoint js_insert {A : Type} (compare : A -> A -> Z) (x : A) (sorted : list A) : list A :=
  match sorted with
  | [] => [x]
  | y :: rest =>
      if compare x y <=? 0 then x :: y :: rest else y :: js_insert compare x rest
  end.

Definition js_sort {A : Type} (compare : A -> A -> Z) (arr : list A) : list A :=
  fold_right (js_insert compare) [] arr.

(** The filter's reference moment: [let now = moment(); if
    (now.isBefore(cutoffTime)) now.startOf("day")].  The clock is read once
    per call of [getOrdersArr]. *)
Definition referenceMoment (now cutoffTime : Moment.t) : Moment.t :=
  if Moment.isBefore now cutoffTime then Moment.startOf_day now else now.

(** The comparator handed to [sort]:
    [(orderA, orderB) => orderA.date.diff(orderB.date)]. *)
Definition compareDates (orderA orderB : Order Moment.t) : Z :=
  Moment.diff (date orderA) (date orderB).

Section OrdersArr.

(** [m.format(READABLE_FORMAT)], with [READABLE_FORMAT] from the missing
    [constants/Date.js]. *)
Variable Readable : Type.
Variable format_READABLE : Moment.t -> Readable.

(** [{ ...order, date: order.date.format(READABLE_FORMAT) }]. *)
Definition displayed (order : Order Moment.t) : Order Readable :=
  mkOrder (key order) (title order) (format_READABLE (date order)) (orderOptions order).

Definition getOrdersArr (now : Moment.t) (orders : Orders) (cutoffTime : Moment.t)
    : list (Order Readable) :=
  map displayed
    (js_sort compareDates
       (filter (fun order =>
                  let now := referenceMoment now cutoffTime in
                  Moment.isSameOrAfter (date order) now)
               (Object_values orders))).

End OrdersArr.

Arguments displayed {Readable} format_READABLE order.
Arguments getOrdersArr {Readable} format_READABLE now orders cutoffTime.

(** ** Vocabulary of the properties *)

(** The dates the loop visits: [date], [date] plus one day, ..., [n] of
    them. *)
Definition candidates (n : nat) (date : Moment.t) : list Moment.t :=
  map (fun i => Moment.add_days (Z.of_nat i) date) (seq 0 n).

(** The condition of the loop's [if], as a function of the visited date. *)
Definition eligible {FocusDate : Type} (toISO : FocusDate -> IsoDate)
    (schedule : Schedule) (orderDates : list IsoDate)
    (focusedOrder : option (Order FocusDate)) (date : Moment.t) : bool :=
  truthy (isSchoolDay date schedule)
  && (negb (includes orderDates (format_ISO date))
      || focusedOn toISO focusedOrder (format_ISO date)).

(** Some order of the mapping is dated on the calendar day [day]. *)
Definition occupied (orders : Orders) (day : IsoDate) : Prop :=
  exists id order, js_get orders id = Some order /\ format_ISO (date order) = day.

(** The focused order, if any, is dated on the calendar day [day]. *)
Definition focusedDay {FocusDate : Type} (toISO : FocusDate -> IsoDate)
    (focusedOrder : option (Order FocusDate)) (day : IsoDate) : Prop :=
  exists order, focusedOrder = Some order /\ toISO (date order) = day.

(** Chronological order of two orders, ties allowed. *)
Definition notAfter (a b : Order Moment.t) : Prop := date a <= date b.

(** ** The scenario of the spec's examples

    A Monday-to-Friday schedule anchored at Monday 17 August 2020, a cutoff
    at 14:00 on Wednesday 19 August 2020 and one order on Friday 21 August
    2020.  Calendar days stand for themselves as display dates. *)
Module Scenario.
Import String.StringSyntax.
Local Open Scope string_scope.

Definition monday : Moment.t := 1597622400000.

(** [h] o'clock on the [n]-th day after the Monday. *)
Definition at_day_hour (n h : Z) : Moment.t :=
  Moment.add_days n monday + h * 3600000.

Definition schedule : Schedule := weekSchedule monday.

Definition cutoffTime : Moment.t := at_day_hour 2 14.

Definition fridayOrder : Order Moment.t :=
  mkOrder "2020-08-21" "Club" (at_day_hour 4 0) [].

Definition orders : Orders := [("2020-08-21", fridayOrder)].

Definition focusedFriday : option (Order IsoDate) :=
  Some (mkOrder "2020-08-21" "Club" (format_ISO (at_day_hour 4 0)) []).

Definition toReadable (isoDate : IsoDate) : IsoDate := isoDate.

Definition toISO (readable : IsoDate) : IsoDate := readable.

(** Orders for the home screen: one on Wednesday (today), two on Friday,
    one on the Monday before; moments stand for themselves as display
    dates. *)
Definition mondayOrder : Order Moment.t :=
  mkOrder "2020-08-17" "Melt" (at_day_hour 0 0) [].

Definition wednesdayOrder : Order Moment.t :=
  mkOrder "2020-08-19" "Wrap" (at_day_hour 2 0) [].

Definition secondFridayOrder : Order Moment.t :=
  mkOrder "2020-08-21-b" "Sub" (at_day_hour 4 0) [].

Definition homeOrders : Orders :=
  [("2020-08-21", fridayOrder); ("2020-08-17", mondayOrder);
   ("2020-08-21-b", secondFridayOrder); ("2020-08-19", wednesdayOrder)].

Definition format_READABLE (m : Moment.t) : Moment.t := m.

End Scenario.

(** ** Error messages ([constants/Firebase.js]) *)

Module Firebase.
Import String.StringSyntax.
Local Open Scope string_scope.

(** The [{ title, message }] objects the two functions return. *)
Record ErrorMessage : Type := mkErrorMessage {
  title : String.string;
  message : String.string
}.

(** An error object, reduced to its [code]; [None] is a [code] that is
    absent or not a string, which no [case] of a [switch] matches. *)
Record FirebaseError : Type := mkFirebaseError {
  code : option String.string
}.

Definition authErrorMessage (error : FirebaseError) : ErrorMessage :=
  match code error with
  | Some c =>
      if String.eqb c "auth/invalid-user-token" then
        mkErrorMessage "Invalid User Credential"
          "The current user's credential is no longer valid. Please sign in again."
      else if String.eqb c "auth/network-request-failed" then
        mkErrorMessage "No Internet Connection"
          "Could not connect to server. Please ensure you are connected to a network."
      else if String.eqb c "auth/wrong-password" then
        mkErrorMessage "Incorrect Password"
          "The password you entered was incorrect."
      else if String.eqb c "auth/user-not-found" then
        mkErrorMessage "Invalid Email"
          "There is no user with that email address. You may need to create an account."
      else
        mkErrorMessage "Error" "Something went wrong. Please try again later."
  | None =>
      mkErrorMessage "Error" "Something went wrong. Please try again later."
  end.

Definition firestoreErrorMessage (error : FirebaseError) : ErrorMessage :=
  match code error with
  | Some c =>
      if String.eqb c "not-found" then
        mkErrorMessage "Not Found" "Couldn't find the requested document."
      else if String.eqb c "already-exists" then
        mkErrorMessage "Document Already Exists"
          "The document you tried to create already exists."
      else if String.eqb c "permission-denied" then
        mkErrorMessage "Permission Denied"
          "You do not have permission to execute this action."
      else if String.eqb c "cancelled" then
        mkErrorMessage "Cancelled" "The operation was cancelled."
      else if String.eqb c "unimplemented" then
        mkErrorMessage "Not Allowed" "This action is not allowed."
      else if String.eqb c "data-loss" then
        mkErrorMessage "Data Loss"
          "Some data may have been lost or corrupted when executing this action."
      else if String.eqb c "unauthenticated" then
        mkErrorMessage "Invalid Authentication"
          "Your authentication credentials are invalid. Try logging out and back in again."
      else
        mkErrorMessage "Error" "Something went wrong. Please try again later."
  | None =>
      mkErrorMessage "Error" "Something went wrong. Please try again later."
  end.

(** The codes the two [switch] statements have a [case] for, and the
    message of their [default]. *)
Definition authCodes : list String.string :=
  ["auth/invalid-user-token"; "auth/network-request-failed";
   "auth/wrong-password"; "auth/user-not-found"].

Definition firestoreCodes : list String.string :=
  ["not-found"; "already-exists"; "permission-denied"; "cancelled";
   "unimplemented"; "data-loss"; "unauthenticated"].

Definition genericMessage : ErrorMessage :=
  mkErrorMessage "Error" "Something went wrong. Please try again later.".

(** The error's [code] is one of [codes]. *)
Definition hasCodeIn (codes : list String.string) (error : FirebaseError) : Prop :=
  exists c, code error = Some c /\ In c codes.

End Firebase.

(** ** The ingredient line of an order card ([components/orders/Card.js])

    Strings are taken to be ASCII: a JS string is read as the list of its
    characters, and [toUpperCase] and [toLowerCase] act on the letters [a-z]
    and [A-Z], as the JS methods do on such strings. *)

Module Card.
Import Ascii String.StringSyntax.
Local Open Scope string_scope.

(** The value of a category of an order: a string (picker, text input) or
    an array of strings (checkboxes). *)
Inductive Ingredient : Type :=
| Str (s : String.string)
| Arr (a : list String.string).

(** The [...ingredients] rest object of a card: its own properties in
    enumeration order. *)
Definition Ingredients := list (String.string * Ingredient).

Definition isString (str : Ingredient) : bool :=
  match str with
  | Str _ => true
  | Arr _ => false
  end.

(** [ingredient.length], of a string or of an array. *)
Definition js_length (ingredient : Ingredient) : nat :=
  match ingredient with
  | Str s => String.length s
  | Arr a => List.length a
  end.

(** [arr.join(sep)]. *)
Definition join (sep : String.string) (arr : list String.string) : String.string :=
  String.concat sep arr.

(** [s.charAt(n)]: the character at [n] as a string, empty out of range. *)
Definition charAt (s : String.string) (n : nat) : String.string :=
  match String.get n s with
  | Some c => String.String c String.EmptyString
  | None => String.EmptyString
  end.

(** [s.slice(n)], for [n >= 0]. *)
Fixpoint slice (s : String.string) (n : nat) {struct n} : String.string :=
  match n, s with
  | O, _ => s
  | S n', String.String _ rest => slice rest n'
  | S _, String.EmptyString => String.EmptyString
  end.

Definition isLowerLetter (c : ascii) : bool :=
  ((97 <=? nat_of_ascii c) && (nat_of_ascii c <=? 122))%nat.

Definition isUpperLetter (c : ascii) : bool :=
  ((65 <=? nat_of_ascii c) && (nat_of_ascii c <=? 90))%nat.

Definition upperChar (c : ascii) : ascii :=
  if isLowerLetter c then ascii_of_nat (nat_of_ascii c - 32) else c.

Definition lowerChar (c : ascii) : ascii :=
  if isUpperLetter c then ascii_of_nat (nat_of_ascii c + 32) else c.

(** [s.toUpperCase()] and [s.toLowerCase()]. *)
Fixpoint toUpperCase (s : String.string) : String.string :=
  match s with
  | String.EmptyString => String.EmptyString
  | String.String c rest => String.String (upperChar c) (toUpperCase rest)
  end.

Fixpoint toLowerCase (s : String.string) : String.string :=
  match s with
  | String.EmptyString => String.EmptyString
  | String.String c rest => String.String (lowerChar c) (toLowerCase rest)
  end.

(** The body of the [for ... in] loop, for one own property; the test
    [isString(ingredient)] is the case analysis on the value. *)
Definition pushIngredient (allIngredients : list String.string)
    (property : String.string * Ingredient) : list String.string :=
  let ingredient := snd property in
  if (0 <? js_length ingredient)%nat then
    match ingredient with
    | Str s => allIngredients ++ [s]
    | Arr a => allIngredients ++ [join ", " a]
    end
  else allIngredients.

Definition getIngredientStr (ingredients : Ingredients) : String.string :=
  let allIngredients := fold_left pushIngredient ingredients [] in
  let ingredientStr := join ", " allIngredients in
  String.append (toUpperCase (charAt ingredientStr 0))
                (toLowerCase (slice ingredientStr 1)).

(** A category with something selected or typed in. *)
Definition nonEmpty (property : String.string * Ingredient) : bool :=
  (0 <? js_length (snd property))%nat.

(** The same ingredients with every string in lower case. *)
Definition lowerIngredient (ingredient : Ingredient) : Ingredient :=
  match ingredient with
  | Str s => Str (toLowerCase s)
  | Arr a => Arr (map toLowerCase a)
  end.

(** The characters of a string. *)
Definition chars (s : String.string) : list ascii := String.list_ascii_of_string s.

(** What a category with a non-empty value contributes to the line. *)
Definition ingredientText (property : String.string * Ingredient) : String.string :=
  match snd property with
  | Str s => s
  | Arr a => join ", " a
  end.

(** The ingredients with their strings put in lower case. *)
Definition lowerIngredients (ingredients : Ingredients) : Ingredients :=
  map (fun property => (fst property, lowerIngredient (snd property))) ingredients.

End Card.

(* ================================================================== *)
(** * Part II: properties                                              *)
(* ================================================================== *)

(** ** Facts about the moment operations *)

Module MomentFacts.
Import Moment.

Lemma MS_PER_DAY_pos : 0 < MS_PER_DAY.
Proof. reflexivity. Qed.

Lemma diff_days_nonneg (a b : t) :
  b <= a -> diff_days a b = (a - b) / MS_PER_DAY.
Proof.
  intros H. unfold diff_days, absFloor.
  apply Z.quot_div_nonneg; [lia | apply MS_PER_DAY_pos].
Qed.

Lemma diff_days_nonneg_bound (a b : t) : b <= a -> 0 <= diff_days a b.
Proof.
  intros H. rewrite diff_days_nonneg by assumption.
  apply Z.div_pos; [lia | apply MS_PER_DAY_pos].
Qed.

Lemma diff_days_nonpos_bound (a b : t) : a <= b -> diff_days a b <= 0.
Proof.
  intros H. unfold diff_days, absFloor.
  pose proof (Z.quot_opp_l (b - a) MS_PER_DAY ltac:(discriminate)) as Ho.
  replace (- (b - a)) with (a - b) in Ho by lia.
  rewrite Ho.
  pose proof (Z.quot_pos (b - a) MS_PER_DAY ltac:(lia) MS_PER_DAY_pos). lia.
Qed.

Lemma diff_days_add (n : Z) (a b : t) :
  b <= a -> 0 <= n -> diff_days (add_days n a) b = diff_days a b + n.
Proof.
  intros Hab Hn. unfold add_days.
  rewrite !diff_days_nonneg by (pose proof MS_PER_DAY_pos; nia).
  replace (a + n * MS_PER_DAY - b) with (a - b + n * MS_PER_DAY) by lia.
  apply Z.div_add. discriminate.
Qed.

(** Inside the [k]-th day after [b] the difference in days is [k]. *)
Lemma diff_days_within (k : Z) (a b : t) :
  0 <= k -> add_days k b <= a < add_days (k + 1) b -> diff_days a b = k.
Proof.
  unfold add_days. intros Hk [Hlo Hhi].
  rewrite diff_days_nonneg by (pose proof MS_PER_DAY_pos; nia).
  symmetry. apply (Z.div_unique _ _ k (a - b - k * MS_PER_DAY)); lia.
Qed.

Lemma format_ISO_add_days (k : Z) (m : t) :
  format_ISO (add_days k m) = format_ISO m + k.
Proof.
  unfold format_ISO, add_days. apply Z.div_add. discriminate.
Qed.

Lemma add_days_add_days (j k : Z) (m : t) :
  add_days j (add_days k m) = add_days (k + j) m.
Proof. unfold add_days. lia. Qed.

Lemma add_days_0 (m : t) : add_days 0 m = m.
Proof. unfold add_days. lia. Qed.

End MomentFacts.

(** ** ScheduleIndexer *)

Section ScheduleIndexer.
Import Moment MomentFacts.

Lemma getScheduleIndex_from_anchor (d s L : Z) :
  0 < L -> s <= d -> getScheduleIndex d s L = diff_days d s mod L.
Proof.
  intros HL Hsd. unfold getScheduleIndex.
  apply Z.rem_mod_nonneg; [apply diff_days_nonneg_bound; assumption | assumption].
Qed.

(** One day before the anchor, on a 7-day cycle, the code answers [-1]. *)
Example getScheduleIndex_day_before :
  getScheduleIndex (add_days (-1) 0) 0 7 = -1.
Proof. reflexivity. Qed.

(** C1 (a defect of the code).  The specification asks for the mathematical
    modulo, a value of [[0, L)], also for a date before the anchor, and the
    docstring promises the index of the date on the schedule.  On Sunday 16
    August 2020, one day before the anchor Monday 17 August 2020, with a cycle
    of 7 days, the difference in whole days is [-1] and the code returns [-1]:
    not the mathematical modulo [6], and not a value of [[0, 7)]. *)
Theorem getScheduleIndex_before_anchor_defect :
  let d := Scenario.at_day_hour (-1) 0 in
  diff_days d Scenario.monday = -1 /\
  getScheduleIndex d Scenario.monday 7 = -1 /\
  diff_days d Scenario.monday mod 7 = 6 /\
  ~ (0 <= getScheduleIndex d Scenario.monday 7 < 7).
Proof.
  cbv zeta. split; [reflexivity |]. split; [reflexivity |]. split; [reflexivity |].
  intros [Hlo _]. vm_compute in Hlo. apply Hlo. reflexivity.
Qed.

(** Where the code is right and where it is not: for a cycle length
    [L > 0], a date [d] that is not before the anchor gets the mathematical
    modulo of the difference in whole days, a value of [[0, L)], as specified;
    a date before the anchor gets the truncating remainder of that difference,
    a value of [(-L, 0]], which is the defect above. *)
Theorem getScheduleIndex_range (d s L : Z) :
  0 < L ->
  (s <= d ->
     getScheduleIndex d s L = diff_days d s mod L /\
     0 <= getScheduleIndex d s L < L) /\
  (d < s ->
     getScheduleIndex d s L = Z.rem (diff_days d s) L /\
     - L < getScheduleIndex d s L <= 0).
Proof.
  intros HL. split.
  - intros Hsd. rewrite getScheduleIndex_from_anchor by assumption.
    split; [reflexivity | apply Z.mod_pos_bound; assumption].
  - intros Hds. split; [reflexivity |].
    unfold getScheduleIndex.
    pose proof (diff_days_nonpos_bound d s ltac:(lia)) as Hq.
    pose proof (Z.rem_opp_l (diff_days d s) L ltac:(lia)) as Ho.
    pose proof (Z.rem_bound_pos (- diff_days d s) L ltac:(lia) HL). lia.
Qed.

Lemma getScheduleIndex_range_witness :
  (getScheduleIndex (add_days 9 0) 0 7 = diff_days (add_days 9 0) 0 mod 7 /\
   0 <= getScheduleIndex (add_days 9 0) 0 7 < 7) /\
  (getScheduleIndex (add_days (-9) 0) 0 7 = Z.rem (diff_days (add_days (-9) 0) 0) 7 /\
   - 7 < getScheduleIndex (add_days (-9) 0) 0 7 <= 0).
Proof.
  split.
  - apply (getScheduleIndex_range (add_days 9 0) 0 7); [lia | vm_compute; discriminate].
  - apply (getScheduleIndex_range (add_days (-9) 0) 0 7); [lia | reflexivity].
Defined.

(** C7 (a defect of the code).  The schedule repeats, so a date and the
    date [L] days later are to get the same index.  On Sunday 16 August 2020,
    one day before the anchor Monday 17 August 2020, with a cycle of 7 days,
    the code returns [-1]; seven days later, on Sunday 23 August 2020, it
    returns [6]. *)
Theorem getScheduleIndex_not_periodic_defect :
  let d := Scenario.at_day_hour (-1) 0 in
  getScheduleIndex d Scenario.monday 7 = -1 /\
  getScheduleIndex (add_days 7 d) Scenario.monday 7 = 6 /\
  getScheduleIndex (add_days 7 d) Scenario.monday 7
  <> getScheduleIndex d Scenario.monday 7.
Proof.
  cbv zeta. split; [reflexivity |]. split; [reflexivity |].
  vm_compute. discriminate.
Qed.

(** From the anchor on the code is periodic: for a cycle length [L > 0] and
    a date [d] that is not before the anchor, [d] and [d] plus [L] days have
    the same index. *)
Theorem getScheduleIndex_periodic (d s L : Z) :
  0 < L -> s <= d ->
  getScheduleIndex (add_days L d) s L = getScheduleIndex d s L.
Proof.
  intros HL Hsd.
  assert (Hsd' : s <= add_days L d)
    by (unfold add_days; pose proof MS_PER_DAY_pos; nia).
  rewrite !getScheduleIndex_from_anchor by assumption.
  rewrite diff_days_add by lia.
  replace (diff_days d s + L) with (diff_days d s + 1 * L) by lia.
  apply Z_mod_plus_full.
Qed.

Lemma getScheduleIndex_periodic_witness :
  getScheduleIndex (add_days 7 (add_days 3 0)) 0 7 = getScheduleIndex (add_days 3 0) 0 7.
Proof.
  apply (getScheduleIndex_periodic (add_days 3 0) 0 7); [lia | vm_compute; discriminate].
Defined.

(** C9: for a cycle length [L > 0], the index of the anchor itself is 0. *)
Theorem getScheduleIndex_anchor (s L : Z) :
  0 < L -> getScheduleIndex s s L = 0.
Proof.
  intros HL. unfold getScheduleIndex, diff_days, absFloor.
  rewrite Z.sub_diag. rewrite Z.quot_0_l by discriminate.
  apply Z.rem_0_l. lia.
Qed.

Lemma getScheduleIndex_anchor_witness :
  getScheduleIndex 1597622400000 1597622400000 7 = 0.
Proof. apply (getScheduleIndex_anchor 1597622400000 7). lia. Defined.

End ScheduleIndexer.

(** ** SchoolDayPredicate *)

Section SchoolDayPredicate.
Import Moment MomentFacts.

Lemma js_index_in_bounds {A : Type} (arr : list A) (i : Z) :
  0 <= i < Z.of_nat (length arr) ->
  js_index arr i = nth_error arr (Z.to_nat i) /\ exists x, js_index arr i = Some x.
Proof.
  intros [Hlo Hhi]. unfold js_index.
  destruct (Z.ltb_spec i 0) as [Hneg | _]; [lia |].
  split; [reflexivity |].
  destruct (nth_error arr (Z.to_nat i)) as [x |] eqn:Hnth; [exists x; reflexivity |].
  apply nth_error_None in Hnth. lia.
Qed.

(** Two days before the anchor of a week schedule the lookup is
    [values[-2]], that is [undefined]. *)
Example isSchoolDay_before_anchor :
  isSchoolDay (add_days (-2) 0) (weekSchedule 0) = None.
Proof. reflexivity. Qed.

(** C2 (a defect of the code).  The lookup is to be in bounds and to yield
    a stored boolean for every date, as the docstring's [@return {boolean}]
    says.  On Saturday 15 August 2020, two days before the anchor Monday 17
    August 2020 of the (non-empty) Monday-to-Friday schedule, the index is
    [-2], outside the bounds of the sequence, and [isSchoolDay] returns
    [values[-2]], that is [undefined]. *)
Theorem isSchoolDay_before_anchor_defect :
  let d := Scenario.at_day_hour (-2) 0 in
  let i := getScheduleIndex d (startDate Scenario.schedule)
                            (Z.of_nat (length (values Scenario.schedule))) in
  values Scenario.schedule <> [] /\
  i = -2 /\
  ~ (0 <= i < Z.of_nat (length (values Scenario.schedule))) /\
  isSchoolDay d Scenario.schedule = None.
Proof.
  cbv zeta. split; [discriminate |]. split; [reflexivity |].
  split; [| reflexivity].
  intros [Hlo _]. vm_compute in Hlo. apply Hlo. reflexivity.
Qed.

(** From the anchor on the code is right: for every schedule with a
    non-empty sequence and every date that is not before the schedule's
    anchor, the index computed by [getScheduleIndex] is within the bounds of
    the sequence and [isSchoolDay] returns the boolean stored there (never
    [undefined]). *)
Theorem isSchoolDay_total (d : Moment.t) (schedule : Schedule) :
  values schedule <> [] ->
  startDate schedule <= d ->
  let i := getScheduleIndex d (startDate schedule)
                            (Z.of_nat (length (values schedule))) in
  0 <= i < Z.of_nat (length (values schedule)) /\
  isSchoolDay d schedule = nth_error (values schedule) (Z.to_nat i) /\
  exists b : bool, isSchoolDay d schedule = Some b.
Proof.
  intros Hne Hsd i.
  assert (HL : 0 < Z.of_nat (length (values schedule))).
  { destruct (values schedule); [contradiction | simpl; lia]. }
  assert (Hi : 0 <= i < Z.of_nat (length (values schedule))).
  { subst i. rewrite getScheduleIndex_from_anchor by assumption.
    apply Z.mod_pos_bound; assumption. }
  split; [exact Hi |].
  unfold isSchoolDay. fold i. apply js_index_in_bounds; exact Hi.
Qed.

Lemma isSchoolDay_total_witness :
  let i := getScheduleIndex (add_days 12 0) (startDate (weekSchedule 0))
                            (Z.of_nat (length (values (weekSchedule 0)))) in
  0 <= i < Z.of_nat (length (values (weekSchedule 0))) /\
  isSchoolDay (add_days 12 0) (weekSchedule 0)
    = nth_error (values (weekSchedule 0)) (Z.to_nat i) /\
  exists b : bool, isSchoolDay (add_days 12 0) (weekSchedule 0) = Some b.
Proof.
  apply (isSchoolDay_total (add_days 12 0) (weekSchedule 0)).
  - discriminate.
  - vm_compute. discriminate.
Defined.

(** Midnight of Monday 17 August 2020; day 0 of the local epoch is a
    Thursday, so the Mondays are the days congruent to 4 modulo 7. *)
Example monday_2020_08_17 :
  format_ISO 1597622400000 = 18491 /\ 18491 mod 7 = 4 /\
  startOf_day 1597622400000 = 1597622400000.
Proof. repeat split. Qed.

(** C8: with the sequence [true, true, true, true, true, false, false]
    anchored at (the midnight of) a Monday, every moment of the [k]-th day
    after the anchor, [0 <= k < 7], is a school day exactly when [k < 5]:
    Monday to Friday give [true], Saturday and Sunday give [false]. *)
Theorem isSchoolDay_week (monday d : Moment.t) (k : Z) :
  0 <= k < 7 ->
  add_days k monday <= d < add_days (k + 1) monday ->
  isSchoolDay d (weekSchedule monday) = Some (k <? 5).
Proof.
  intros Hk Hd.
  unfold isSchoolDay, getScheduleIndex. simpl.
  rewrite (diff_days_within k d monday) by (assumption || lia).
  rewrite Z.rem_small by lia.
  assert (Hcases : k = 0 \/ k = 1 \/ k = 2 \/ k = 3 \/ k = 4 \/ k = 5 \/ k = 6) by lia.
  destruct Hcases as [-> | [-> | [-> | [-> | [-> | [-> | ->]]]]]]; reflexivity.
Qed.

Lemma isSchoolDay_week_witness :
  (* Friday 21 August 2020, 12:00 *)
  isSchoolDay (1597622400000 + 4 * 86400000 + 43200000) (weekSchedule 1597622400000)
    = Some true
  /\
  (* Saturday 22 August 2020, 12:00 *)
  isSchoolDay (1597622400000 + 5 * 86400000 + 43200000) (weekSchedule 1597622400000)
    = Some false.
Proof.
  split.
  - apply (isSchoolDay_week 1597622400000 _ 4); [lia | vm_compute; split; congruence].
  - apply (isSchoolDay_week 1597622400000 _ 5); [lia | vm_compute; split; congruence].
Defined.

End SchoolDayPredicate.

(** ** DateOptionsCalculator *)

Section DateOptionsFacts.
Import Moment MomentFacts.

Variable Readable : Type.
Variable toReadable : IsoDate -> Readable.
Variable FocusDate : Type.
Variable toISO : FocusDate -> IsoDate.

Lemma candidates_S (n : nat) (d : Moment.t) :
  candidates (S n) d = d :: candidates n (add_days 1 d).
Proof.
  unfold candidates. simpl. rewrite add_days_0. f_equal.
  rewrite <- seq_shift, map_map. apply map_ext.
  intros i. rewrite add_days_add_days. f_equal. lia.
Qed.

Lemma candidates_length (n : nat) (d : Moment.t) : length (candidates n d) = n.
Proof. unfold candidates. rewrite length_map. apply length_seq. Qed.

Lemma in_candidates (n : nat) (d x : Moment.t) :
  In x (candidates n d) <-> exists k, 0 <= k < Z.of_nat n /\ x = add_days k d.
Proof.
  unfold candidates. rewrite in_map_iff. split.
  - intros [i [Hx Hi]]. apply in_seq in Hi.
    exists (Z.of_nat i). split; [lia | symmetry; exact Hx].
  - intros [k [Hk Hx]]. exists (Z.to_nat k). split.
    + rewrite Z2Nat.id by lia. symmetry. exact Hx.
    + apply in_seq. lia.
Qed.

(** The loop appends, in order, the display form of the eligible dates
    among those it visits. *)
Lemma scanLoop_filter schedule orderDates focusedOrder (n : nat) :
  forall (d : Moment.t) (dateOptions : list Readable),
    scanLoop toReadable toISO schedule orderDates focusedOrder n d dateOptions
    = dateOptions
      ++ map (fun x => toReadable (format_ISO x))
             (filter (eligible toISO schedule orderDates focusedOrder)
                     (candidates n d)).
Proof.
  induction n as [| n IH]; intros d dateOptions.
  - simpl. rewrite app_nil_r. reflexivity.
  - rewrite candidates_S. simpl scanLoop. rewrite IH. simpl filter.
    unfold eligible at 2.
    destruct (truthy (isSchoolDay d schedule)
              && (negb (includes orderDates (format_ISO d))
                  || focusedOn toISO focusedOrder (format_ISO d))).
    + rewrite <- app_assoc. reflexivity.
    + reflexivity.
Qed.

Lemma getDateOptions_filter now schedule orders focusedOrder cutoffTime :
  getDateOptions toReadable toISO now schedule orders focusedOrder cutoffTime
  = map (fun x => toReadable (format_ISO x))
        (filter (eligible toISO schedule (orderDatesOf orders) focusedOrder)
                (candidates WINDOW (scanStart now cutoffTime))).
Proof. unfold getDateOptions. rewrite scanLoop_filter. reflexivity. Qed.

Lemma js_get_some_key (orders : Orders) id order :
  js_get orders id = Some order -> In id (Object_keys orders).
Proof.
  induction orders as [| [k v] rest IH]; simpl; [discriminate |].
  destruct (String.eqb_spec k id) as [-> | Hne]; [left; reflexivity |].
  intros H. right. apply IH. exact H.
Qed.

Lemma includes_orderDatesOf (orders : Orders) (day : IsoDate) :
  includes (orderDatesOf orders) day = true <-> occupied orders day.
Proof.
  unfold includes, orderDatesOf, occupied.
  rewrite existsb_exists. split.
  - intros [x [Hin Heq]]. apply Z.eqb_eq in Heq. subst x.
    apply in_flat_map in Hin. destruct Hin as [id [_ Hin]].
    destruct (js_get orders id) as [order |] eqn:Hget; [| contradiction].
    destruct Hin as [Hin | []]. exists id, order. split; [exact Hget | exact Hin].
  - intros [id [order [Hget Hday]]]. exists day. split; [| apply Z.eqb_refl].
    apply in_flat_map. exists id. split; [eapply js_get_some_key; eassumption |].
    rewrite Hget. left. exact Hday.
Qed.

Lemma focusedOn_true focusedOrder (day : IsoDate) :
  focusedOn toISO focusedOrder day = true <-> focusedDay toISO focusedOrder day.
Proof.
  unfold focusedOn, focusedDay. destruct focusedOrder as [order |].
  - rewrite Z.eqb_eq. split.
    + intros H. exists order. split; [reflexivity | exact H].
    + intros [order' [Heq H]]. injection Heq as ->. exact H.
  - split; [discriminate |]. intros [order [Heq _]]. discriminate Heq.
Qed.

Lemma truthy_true (v : option bool) : truthy v = true <-> v = Some true.
Proof.
  destruct v as [[|] |]; simpl; split; congruence.
Qed.

Lemma eligible_true schedule orders focusedOrder (d : Moment.t) :
  eligible toISO schedule (orderDatesOf orders) focusedOrder d = true <->
  isSchoolDay d schedule = Some true /\
  (~ occupied orders (format_ISO d) \/ focusedDay toISO focusedOrder (format_ISO d)).
Proof.
  unfold eligible.
  rewrite andb_true_iff, orb_true_iff, negb_true_iff, truthy_true, focusedOn_true.
  rewrite <- includes_orderDatesOf.
  destruct (includes (orderDatesOf orders) (format_ISO d)); intuition congruence.
Qed.

(** The calendar days of the dates kept by a filter of the visited dates are
    strictly increasing. *)
Lemma candidates_filter_ascending (keep : Moment.t -> bool) (n : nat) :
  forall d : Moment.t,
    StronglySorted Z.lt (map format_ISO (filter keep (candidates n d))).
Proof.
  induction n as [| n IH]; intros d; [constructor |].
  rewrite candidates_S. simpl filter.
  destruct (keep d); [| apply IH].
  simpl map. constructor; [apply IH |].
  apply Forall_forall. intros day Hday.
  apply in_map_iff in Hday. destruct Hday as [x [<- Hx]].
  apply filter_In in Hx. destruct Hx as [Hx _].
  apply in_candidates in Hx. destruct Hx as [k [Hk ->]].
  rewrite add_days_add_days, format_ISO_add_days. lia.
Qed.

Lemma StronglySorted_lt_NoDup (l : list Z) : StronglySorted Z.lt l -> NoDup l.
Proof.
  induction 1 as [| a l _ IH Hall]; constructor; [| exact IH].
  intros Hin. rewrite Forall_forall in Hall. specialize (Hall a Hin). lia.
Qed.

(** C4: the scan starts at the current moment's day ("today") when the
    current moment is at or before the cutoff time, the tie included, and one
    day later ("tomorrow") when it is strictly after the cutoff time. *)
Theorem getDateOptions_start now schedule orders focusedOrder cutoffTime :
  (now <= cutoffTime ->
     scanStart now cutoffTime = now /\
     getDateOptions toReadable toISO now schedule orders focusedOrder cutoffTime
     = scanLoop toReadable toISO schedule (orderDatesOf orders) focusedOrder
                WINDOW now []) /\
  (cutoffTime < now ->
     scanStart now cutoffTime = add_days 1 now /\
     getDateOptions toReadable toISO now schedule orders focusedOrder cutoffTime
     = scanLoop toReadable toISO schedule (orderDatesOf orders) focusedOrder
                WINDOW (add_days 1 now) []).
Proof.
  unfold getDateOptions, scanStart, isAfter. split; intros H.
  - destruct (Z.ltb_spec cutoffTime now); [lia |]. split; reflexivity.
  - destruct (Z.ltb_spec cutoffTime now); [| lia]. split; reflexivity.
Qed.

(** C5: the returned list has at most 14 entries, and each entry is the
    display form of a date [d] with [start <= d < start + 14 days], where
    [start] is the starting date of the scan; the calendar day of [d] is one
    of the 14 days from the calendar day of [start] on. *)
Theorem getDateOptions_window now schedule orders focusedOrder cutoffTime :
  let start := scanStart now cutoffTime in
  let dateOptions :=
    getDateOptions toReadable toISO now schedule orders focusedOrder cutoffTime in
  (length dateOptions <= 14)%nat /\
  forall r, In r dateOptions ->
    exists d : Moment.t,
      r = toReadable (format_ISO d) /\
      start <= d < add_days 14 start /\
      format_ISO start <= format_ISO d < format_ISO start + 14.
Proof.
  intros start dateOptions. subst dateOptions. rewrite getDateOptions_filter.
  fold start. split.
  - rewrite length_map.
    etransitivity; [apply filter_length_le |].
    rewrite candidates_length. apply Nat.le_refl.
  - intros r Hr. apply in_map_iff in Hr. destruct Hr as [d [<- Hd]].
    apply filter_In in Hd. destruct Hd as [Hd _].
    apply in_candidates in Hd. destruct Hd as [k [Hk ->]].
    change (Z.of_nat WINDOW) with 14 in Hk.
    exists (add_days k start). split; [reflexivity |].
    rewrite format_ISO_add_days. unfold add_days.
    pose proof MS_PER_DAY_pos. split; [nia | lia].
Qed.

Hypothesis toReadable_inj : forall a b : IsoDate, toReadable a = toReadable b -> a = b.

(** C3: a candidate date (one of the 14 dates of the scan) is in the result,
    in display form, if and only if it is a school day and either no order
    of the mapping is dated on its calendar day or the focused order is. *)
Theorem getDateOptions_membership now schedule orders focusedOrder cutoffTime (k : Z) :
  0 <= k < 14 ->
  let d := add_days k (scanStart now cutoffTime) in
  In (toReadable (format_ISO d))
     (getDateOptions toReadable toISO now schedule orders focusedOrder cutoffTime)
  <->
  isSchoolDay d schedule = Some true /\
  (~ occupied orders (format_ISO d) \/ focusedDay toISO focusedOrder (format_ISO d)).
Proof.
  intros Hk d. rewrite getDateOptions_filter, <- eligible_true.
  rewrite in_map_iff. split.
  - intros [x [Hx Hin]]. apply toReadable_inj in Hx.
    apply filter_In in Hin. destruct Hin as [Hin Hel].
    apply in_candidates in Hin. destruct Hin as [k' [Hk' ->]].
    subst d. rewrite !format_ISO_add_days in Hx.
    assert (k' = k) as -> by lia. exact Hel.
  - intros Hel. exists d. split; [reflexivity |].
    apply filter_In. split; [| exact Hel].
    apply in_candidates. exists k. split; [exact Hk | reflexivity].
Qed.

(** C6: the returned list is the display form of a strictly increasing
    sequence of calendar days, and no entry occurs twice. *)
Theorem getDateOptions_ascending now schedule orders focusedOrder cutoffTime :
  exists days : list IsoDate,
    getDateOptions toReadable toISO now schedule orders focusedOrder cutoffTime
    = map toReadable days /\
    StronglySorted Z.lt days /\
    NoDup days /\
    NoDup (getDateOptions toReadable toISO now schedule orders focusedOrder cutoffTime).
Proof.
  rewrite getDateOptions_filter.
  set (kept := filter _ _).
  assert (Hsorted : StronglySorted Z.lt (map format_ISO kept))
    by apply candidates_filter_ascending.
  exists (map format_ISO kept). rewrite map_map.
  split; [reflexivity |]. split; [exact Hsorted |].
  pose proof (StronglySorted_lt_NoDup _ Hsorted) as Hnodup.
  split; [exact Hnodup |].
  rewrite <- (map_map format_ISO toReadable).
  apply Finite.Injective_map_NoDup; [exact toReadable_inj | exact Hnodup].
Qed.

End DateOptionsFacts.

(** *** The scenarios of the spec, evaluated *)

Module ScenarioFacts.
Import Scenario.

Lemma scenario_toReadable_inj (a b : IsoDate) : toReadable a = toReadable b -> a = b.
Proof. intros H. exact H. Qed.

(** Wednesday 10:00, before the cutoff, no order: the list starts today. *)
Example before_cutoff :
  getDateOptions toReadable toISO (at_day_hour 2 10) schedule [] None cutoffTime
  = [18493; 18494; 18495; 18498; 18499; 18500; 18501; 18502; 18505; 18506].
Proof. vm_compute. reflexivity. Qed.

(** Wednesday 16:00, after the cutoff: the list starts tomorrow. *)
Example after_cutoff :
  getDateOptions toReadable toISO (at_day_hour 2 16) schedule [] None cutoffTime
  = [18494; 18495; 18498; 18499; 18500; 18501; 18502; 18505; 18506; 18507].
Proof. vm_compute. reflexivity. Qed.

(** An order on Friday and no focused order: Friday (18495) is left out. *)
Example friday_taken :
  getDateOptions toReadable toISO (at_day_hour 2 10) schedule orders None cutoffTime
  = [18493; 18494; 18498; 18499; 18500; 18501; 18502; 18505; 18506].
Proof. vm_compute. reflexivity. Qed.

(** The order on Friday is the focused one: Friday is offered. *)
Example friday_focused :
  getDateOptions toReadable toISO (at_day_hour 2 10) schedule orders focusedFriday
                 cutoffTime
  = [18493; 18494; 18495; 18498; 18499; 18500; 18501; 18502; 18505; 18506].
Proof. vm_compute. reflexivity. Qed.

(** The defect before the anchor, seen from the caller.  With the anchor
    Monday 17 August 2020 still eight days ahead, on Sunday 9 August 2020 at
    10:00, the options are the two Sundays before the anchor (18483 and
    18490), where the truncated difference in days is a multiple of 7 and
    the lookup lands on the first entry, and the week from the anchor on;
    the weekdays before the anchor, where the lookup is [undefined], are
    missing. *)
Example anchor_ahead :
  getDateOptions toReadable toISO (at_day_hour (-8) 10) schedule [] None
                 (at_day_hour (-8) 14)
  = [18483; 18490; 18491; 18492; 18493; 18494; 18495].
Proof. vm_compute. reflexivity. Qed.

End ScenarioFacts.

(** *** Instances of the properties in the scenario *)

Section ScenarioInstances.
Import Moment Scenario.

Lemma getDateOptions_start_witness :
  (* at the cutoff exactly: today *)
  (scanStart cutoffTime cutoffTime = cutoffTime /\
   getDateOptions toReadable toISO cutoffTime schedule orders None cutoffTime
   = scanLoop toReadable toISO schedule (orderDatesOf orders) None
              WINDOW cutoffTime []) /\
  (* at 16:00, after the cutoff: tomorrow *)
  (scanStart (at_day_hour 2 16) cutoffTime = add_days 1 (at_day_hour 2 16) /\
   getDateOptions toReadable toISO (at_day_hour 2 16) schedule orders None cutoffTime
   = scanLoop toReadable toISO schedule (orderDatesOf orders) None
              WINDOW (add_days 1 (at_day_hour 2 16)) []).
Proof.
  split.
  - apply (proj1 (getDateOptions_start IsoDate toReadable IsoDate toISO
                    cutoffTime schedule orders None cutoffTime)).
    lia.
  - apply (proj2 (getDateOptions_start IsoDate toReadable IsoDate toISO
                    (at_day_hour 2 16) schedule orders None cutoffTime)).
    reflexivity.
Defined.

Lemma getDateOptions_window_witness :
  exists d : Moment.t,
    18494 = toReadable (format_ISO d) /\
    scanStart (at_day_hour 2 10) cutoffTime <= d
      < add_days 14 (scanStart (at_day_hour 2 10) cutoffTime) /\
    format_ISO (scanStart (at_day_hour 2 10) cutoffTime) <= format_ISO d
      < format_ISO (scanStart (at_day_hour 2 10) cutoffTime) + 14.
Proof.
  apply (proj2 (getDateOptions_window IsoDate toReadable IsoDate toISO
                  (at_day_hour 2 10) schedule orders None cutoffTime) 18494).
  vm_compute. right. left. reflexivity.
Defined.

Lemma getDateOptions_membership_witness :
  let d := add_days 2 (scanStart (at_day_hour 2 10) cutoffTime) in
  In (toReadable (format_ISO d))
     (getDateOptions toReadable toISO (at_day_hour 2 10) schedule orders None cutoffTime)
  <->
  isSchoolDay d schedule = Some true /\
  (~ occupied orders (format_ISO d) \/ focusedDay toISO None (format_ISO d)).
Proof.
  apply (getDateOptions_membership IsoDate toReadable IsoDate toISO
           ScenarioFacts.scenario_toReadable_inj
           (at_day_hour 2 10) schedule orders None cutoffTime 2).
  lia.
Defined.

Lemma getDateOptions_ascending_witness :
  exists days : list IsoDate,
    getDateOptions toReadable toISO (at_day_hour 2 10) schedule orders None cutoffTime
    = map toReadable days /\
    StronglySorted Z.lt days /\
    NoDup days /\
    NoDup (getDateOptions toReadable toISO (at_day_hour 2 10) schedule orders None
                          cutoffTime).
Proof.
  apply (getDateOptions_ascending IsoDate toReadable IsoDate toISO
           ScenarioFacts.scenario_toReadable_inj
           (at_day_hour 2 10) schedule orders None cutoffTime).
Defined.

End ScenarioInstances.

(** ** The home screen's orders *)

Section SortFacts.

Variable A : Type.
Variable compare : A -> A -> Z.

Lemma js_insert_perm (x : A) (l : list A) :
  Permutation (js_insert compare x l) (x :: l).
Proof.
  induction l as [| y l IH]; simpl; [reflexivity |].
  destruct (compare x y <=? 0); [reflexivity |].
  rewrite IH. apply perm_swap.
Qed.

Lemma js_sort_perm (l : list A) : Permutation (js_sort compare l) l.
Proof.
  induction l as [| x l IH]; simpl; [constructor |].
  rewrite js_insert_perm. constructor. exact IH.
Qed.

End SortFacts.

Section OrdersArrFacts.
Import Moment MomentFacts.

Lemma js_insert_sorted (x : Order Moment.t) (l : list (Order Moment.t)) :
  StronglySorted notAfter l ->
  StronglySorted notAfter (js_insert compareDates x l).
Proof.
  induction 1 as [| y l Hl IH Hall]; simpl; [repeat constructor |].
  unfold compareDates at 1, diff.
  destruct (Z.leb_spec (date x - date y) 0) as [Hle | Hgt].
  - constructor; [constructor; assumption |].
    constructor; [unfold notAfter; lia |].
    eapply Forall_impl; [| exact Hall].
    intros z Hz. unfold notAfter in *. lia.
  - constructor; [exact IH |].
    rewrite js_insert_perm. constructor; [unfold notAfter; lia | exact Hall].
Qed.

Lemma js_sort_sorted (l : list (Order Moment.t)) :
  StronglySorted notAfter (js_sort compareDates l).
Proof.
  induction l as [| x l IH]; simpl; [constructor |].
  apply js_insert_sorted. exact IH.
Qed.

Lemma sorted_dates (l : list (Order Moment.t)) :
  StronglySorted notAfter l -> StronglySorted Z.le (map date l).
Proof.
  induction 1 as [| x l _ IH Hall]; simpl; constructor; [exact IH |].
  apply Forall_map. exact Hall.
Qed.

Lemma StronglySorted_le_NoDup_lt (l : list Z) :
  StronglySorted Z.le l -> NoDup l -> StronglySorted Z.lt l.
Proof.
  induction 1 as [| a l _ IH Hall]; intros Hnd; constructor;
    inversion Hnd as [| ? ? Hnotin Hnd']; subst.
  - apply IH. exact Hnd'.
  - rewrite Forall_forall in *. intros b Hb.
    specialize (Hall b Hb). assert (a <> b) by (intros ->; contradiction). lia.
Qed.

Variable Readable : Type.
Variable format_READABLE : Moment.t -> Readable.

(** C10, amended: [getOrdersArr] returns, with their dates in display form,
    exactly the orders whose date is at or after the reference moment
    (today's midnight when the current moment is before the cutoff time, the
    current moment itself otherwise), in ascending order of date; the order
    is strictly ascending when the kept dates are pairwise distinct.  When
    the current moment is later than today's midnight, an order dated today's
    midnight is kept if and only if the current moment is before the cutoff
    time. *)
Theorem getOrdersArr_future_sorted (now : Moment.t) (orders : Orders)
    (cutoffTime : Moment.t) :
  exists kept : list (Order Moment.t),
    getOrdersArr format_READABLE now orders cutoffTime
    = map (displayed format_READABLE) kept /\
    Permutation kept
      (filter (fun order => referenceMoment now cutoffTime <=? date order)
              (Object_values orders)) /\
    (forall order,
       In order kept <->
       In order (Object_values orders) /\ referenceMoment now cutoffTime <= date order) /\
    referenceMoment now cutoffTime
      = (if now <? cutoffTime then startOf_day now else now) /\
    StronglySorted Z.le (map date kept) /\
    (NoDup (map date kept) -> StronglySorted Z.lt (map date kept)) /\
    (forall order,
       In order (Object_values orders) ->
       date order = startOf_day now ->
       startOf_day now < now ->
       (In order kept <-> now < cutoffTime)).
Proof.
  set (reference := referenceMoment now cutoffTime).
  set (future := filter (fun order => reference <=? date order) (Object_values orders)).
  exists (js_sort compareDates future).
  assert (Hperm : Permutation (js_sort compareDates future) future)
    by apply js_sort_perm.
  assert (Hin : forall order,
             In order (js_sort compareDates future) <->
             In order (Object_values orders) /\ reference <= date order).
  { intros order. split.
    - intros H. apply (Permutation_in _ Hperm) in H.
      apply filter_In in H. rewrite Z.leb_le in H. exact H.
    - intros H. apply (Permutation_in _ (Permutation_sym Hperm)).
      apply filter_In. rewrite Z.leb_le. exact H. }
  assert (Hsorted : StronglySorted Z.le (map date (js_sort compareDates future)))
    by (apply sorted_dates, js_sort_sorted).
  split; [reflexivity |].
  split; [exact Hperm |].
  split; [exact Hin |].
  split; [reflexivity |].
  split; [exact Hsorted |].
  split; [apply StronglySorted_le_NoDup_lt; exact Hsorted |].
  intros order Hvalue Hdate Hlate.
  rewrite Hin. subst reference. unfold referenceMoment, isBefore.
  destruct (Z.ltb_spec now cutoffTime); split; intros H'; try lia.
  split; [exact Hvalue | lia].
Qed.

End OrdersArrFacts.

Section HomeScreenScenario.
Import Moment Scenario String.StringSyntax.
Local Open Scope string_scope.

(** Wednesday 10:00, before the cutoff: the past order is dropped, today's
    order is kept, and the two orders of Friday follow in the mapping's
    order. *)
Example home_before_cutoff :
  map key (getOrdersArr format_READABLE (at_day_hour 2 10) homeOrders cutoffTime)
  = ["2020-08-19"; "2020-08-21"; "2020-08-21-b"].
Proof. vm_compute. reflexivity. Qed.

(** Wednesday 16:00, after the cutoff: today's order is dropped too. *)
Example home_after_cutoff :
  map key (getOrdersArr format_READABLE (at_day_hour 2 16) homeOrders cutoffTime)
  = ["2020-08-21"; "2020-08-21-b"].
Proof. vm_compute. reflexivity. Qed.

(** C10, as stated, fails twice.  Two orders of the mapping dated the same
    Friday are both returned, so the dates of the result are not strictly
    ascending.  And at midnight sharp, with the cutoff time not later than the
    current moment, an order dated today is kept although the current moment
    is not before the cutoff time. *)
Lemma getOrdersArr_future_sorted_counterexample :
  ~ StronglySorted Z.lt
      (map date (getOrdersArr format_READABLE (at_day_hour 2 10) homeOrders cutoffTime))
  /\
  ~ (In (displayed format_READABLE wednesdayOrder)
        (getOrdersArr format_READABLE (at_day_hour 2 0) homeOrders (at_day_hour 2 0))
     <-> at_day_hour 2 0 < at_day_hour 2 0).
Proof.
  split.
  - vm_compute. intros H.
    apply StronglySorted_inv in H. destruct H as [H _].
    apply StronglySorted_inv in H. destruct H as [_ H].
    apply Forall_inv in H. vm_compute in H. discriminate H.
  - intros [H _].
    assert (Hin : In (displayed format_READABLE wednesdayOrder)
                     (getOrdersArr format_READABLE (at_day_hour 2 0) homeOrders
                                   (at_day_hour 2 0)))
      by (vm_compute; left; reflexivity).
    apply H in Hin. lia.
Qed.

Lemma getOrdersArr_future_sorted_witness :
  exists kept : list (Order Moment.t),
    getOrdersArr format_READABLE (at_day_hour 2 10) homeOrders cutoffTime
    = map (displayed format_READABLE) kept /\
    (In wednesdayOrder kept <-> at_day_hour 2 10 < cutoffTime) /\
    StronglySorted Z.le (map date kept).
Proof.
  destruct (getOrdersArr_future_sorted Moment.t format_READABLE
              (at_day_hour 2 10) homeOrders cutoffTime)
    as [kept [Heq [_ [_ [_ [Hsorted [_ Htoday]]]]]]].
  exists kept. split; [exact Heq |]. split; [| exact Hsorted].
  apply Htoday.
  - vm_compute. tauto.
  - reflexivity.
  - reflexivity.
Defined.

End HomeScreenScenario.

(* ================================================================== *)
(** * Part III: further properties of the code                         *)
(* ================================================================== *)

(** ** The schedule lookup, beyond the anchor-relative index *)

Section ScheduleLookup.
Import Moment MomentFacts.

Lemma schedule_length_pos (schedule : Schedule) :
  values schedule <> [] -> 0 < Z.of_nat (length (values schedule)).
Proof.
  destruct (values schedule); [contradiction | simpl; lia].
Qed.

Lemma js_index_nonneg {A : Type} (arr : list A) (i : Z) :
  0 <= i -> js_index arr i = nth_error arr (Z.to_nat i).
Proof.
  intros Hi. unfold js_index. destruct (Z.ltb_spec i 0); [lia | reflexivity].
Qed.

(** With the anchor at a local midnight, the difference in days between a
    later moment and the anchor is the difference of their calendar days. *)
Lemma diff_days_midnight (d s : Moment.t) :
  startOf_day s = s -> s <= d -> diff_days d s = format_ISO d - format_ISO s.
Proof.
  intros Hmid Hsd. rewrite diff_days_nonneg by assumption.
  unfold startOf_day in Hmid. unfold format_ISO.
  assert (Hs : s = s / MS_PER_DAY * MS_PER_DAY).
  { pose proof (Z.div_mod s MS_PER_DAY ltac:(discriminate)). lia. }
  rewrite Hs at 1.
  replace (d - s / MS_PER_DAY * MS_PER_DAY)
    with (d + (- (s / MS_PER_DAY)) * MS_PER_DAY) by lia.
  rewrite Z.div_add by discriminate. lia.
Qed.

(** X1: when the schedule's anchor is a local midnight, the answer for a
    date at or after the anchor depends on the calendar day of the date only:
    it is the entry of the sequence at (day of the date - day of the anchor)
    modulo the length of the sequence. *)
Theorem isSchoolDay_calendar_day (d : Moment.t) (schedule : Schedule) :
  values schedule <> [] ->
  startOf_day (startDate schedule) = startDate schedule ->
  startDate schedule <= d ->
  isSchoolDay d schedule
  = nth_error (values schedule)
      (Z.to_nat ((format_ISO d - format_ISO (startDate schedule))
                 mod Z.of_nat (length (values schedule)))).
Proof.
  intros Hne Hmid Hsd. pose proof (schedule_length_pos schedule Hne) as HL.
  unfold isSchoolDay.
  rewrite getScheduleIndex_from_anchor by assumption.
  rewrite diff_days_midnight by assumption.
  apply js_index_nonneg. apply Z.mod_pos_bound. exact HL.
Qed.

Lemma isSchoolDay_calendar_day_witness :
  isSchoolDay (Scenario.at_day_hour 8 15) Scenario.schedule
  = nth_error (values Scenario.schedule)
      (Z.to_nat ((format_ISO (Scenario.at_day_hour 8 15)
                  - format_ISO (startDate Scenario.schedule))
                 mod Z.of_nat (length (values Scenario.schedule)))).
Proof.
  apply (isSchoolDay_calendar_day (Scenario.at_day_hour 8 15) Scenario.schedule).
  - discriminate.
  - reflexivity.
  - vm_compute. discriminate.
Defined.

(** X2: the schedule repeats.  For a date at or after the anchor, moving
    the date forward by any whole number of cycles (a multiple of the length
    of the sequence, in days) does not change the answer. *)
Theorem isSchoolDay_periodic (d : Moment.t) (schedule : Schedule) (n : Z) :
  values schedule <> [] ->
  startDate schedule <= d ->
  0 <= n ->
  isSchoolDay (add_days (n * Z.of_nat (length (values schedule))) d) schedule
  = isSchoolDay d schedule.
Proof.
  intros Hne Hsd Hn. pose proof (schedule_length_pos schedule Hne) as HL.
  unfold isSchoolDay. f_equal.
  assert (Hsd' : startDate schedule
                 <= add_days (n * Z.of_nat (length (values schedule))) d)
    by (unfold add_days; pose proof MS_PER_DAY_pos; nia).
  rewrite !getScheduleIndex_from_anchor by assumption.
  rewrite diff_days_add by (assumption || nia).
  apply Z_mod_plus_full.
Qed.

Lemma isSchoolDay_periodic_witness :
  isSchoolDay (add_days (3 * Z.of_nat (length (values Scenario.schedule)))
                        (Scenario.at_day_hour 5 9))
              Scenario.schedule
  = isSchoolDay (Scenario.at_day_hour 5 9) Scenario.schedule.
Proof.
  apply (isSchoolDay_periodic (Scenario.at_day_hour 5 9) Scenario.schedule 3).
  - discriminate.
  - vm_compute. discriminate.
  - lia.
Defined.

(** X3: before the anchor the lookup mostly misses.  For a date before the
    anchor the answer is [undefined], unless the truncated difference in days
    is a multiple of the cycle length, in which case it is the first entry of
    the sequence. *)
Theorem isSchoolDay_before_anchor_undefined (d : Moment.t) (schedule : Schedule) :
  values schedule <> [] ->
  d < startDate schedule ->
  isSchoolDay d schedule
  = if Z.rem (diff_days d (startDate schedule))
             (Z.of_nat (length (values schedule))) =? 0
    then nth_error (values schedule) 0
    else None.
Proof.
  intros Hne Hds. pose proof (schedule_length_pos schedule Hne) as HL.
  unfold isSchoolDay, getScheduleIndex.
  set (L := Z.of_nat (length (values schedule))) in *.
  set (q := diff_days d (startDate schedule)).
  assert (Hq : q <= 0) by (apply diff_days_nonpos_bound; lia).
  pose proof (Z.rem_opp_l q L ltac:(lia)) as Ho.
  pose proof (Z.rem_bound_pos (- q) L ltac:(lia) HL) as Hb.
  destruct (Z.eqb_spec (Z.rem q L) 0) as [-> | Hnz].
  - reflexivity.
  - unfold js_index. destruct (Z.ltb_spec (Z.rem q L) 0); [reflexivity | lia].
Qed.

Lemma isSchoolDay_before_anchor_undefined_witness :
  isSchoolDay (Scenario.at_day_hour (-3) 8) Scenario.schedule
  = if Z.rem (diff_days (Scenario.at_day_hour (-3) 8) (startDate Scenario.schedule))
             (Z.of_nat (length (values Scenario.schedule))) =? 0
    then nth_error (values Scenario.schedule) 0
    else None.
Proof.
  apply (isSchoolDay_before_anchor_undefined
           (Scenario.at_day_hour (-3) 8) Scenario.schedule).
  - discriminate.
  - reflexivity.
Defined.

End ScheduleLookup.

(** ** The date options, beyond membership and order *)

Section DateOptionsMore.
Import Moment MomentFacts.

Variable Readable : Type.
Variable toReadable : IsoDate -> Readable.
Variable FocusDate : Type.
Variable toISO : FocusDate -> IsoDate.

Lemma js_index_In {A : Type} (arr : list A) (i : Z) (x : A) :
  js_index arr i = Some x -> In x arr.
Proof.
  unfold js_index. destruct (i <? 0); [discriminate |]. apply nth_error_In.
Qed.

(** Membership in the result, read off the loop. *)
Lemma getDateOptions_In now schedule orders focusedOrder cutoffTime (r : Readable) :
  In r (getDateOptions toReadable toISO now schedule orders focusedOrder cutoffTime)
  <->
  exists k, 0 <= k < 14 /\
    r = toReadable (format_ISO (add_days k (scanStart now cutoffTime))) /\
    eligible toISO schedule (orderDatesOf orders) focusedOrder
             (add_days k (scanStart now cutoffTime)) = true.
Proof.
  rewrite getDateOptions_filter, in_map_iff. split.
  - intros [d [<- Hd]]. apply filter_In in Hd. destruct Hd as [Hd Hel].
    apply in_candidates in Hd. destruct Hd as [k [Hk ->]].
    exists k. split; [exact Hk |]. split; [reflexivity | exact Hel].
  - intros [k [Hk [-> Hel]]]. exists (add_days k (scanStart now cutoffTime)).
    split; [reflexivity |]. apply filter_In. split; [| exact Hel].
    apply in_candidates. exists k. split; [exact Hk | reflexivity].
Qed.

(** X4: a schedule without a school day offers nothing.  When every entry
    of the schedule's sequence is [false], or the sequence is empty, the
    result is the empty list, whatever the orders, the focus and the time. *)
Theorem getDateOptions_no_school_day now schedule orders focusedOrder cutoffTime :
  Forall (fun b => b = false) (values schedule) ->
  getDateOptions toReadable toISO now schedule orders focusedOrder cutoffTime = [].
Proof.
  intros Hall.
  destruct (getDateOptions toReadable toISO now schedule orders focusedOrder cutoffTime)
    as [| r rest] eqn:Hres; [reflexivity | exfalso].
  assert (Hr : In r (getDateOptions toReadable toISO now schedule orders
                                    focusedOrder cutoffTime))
    by (rewrite Hres; left; reflexivity).
  apply (proj1 (getDateOptions_In _ _ _ _ _ _)) in Hr. destruct Hr as [k [_ [_ Hel]]].
  unfold eligible in Hel. apply andb_true_iff in Hel. destruct Hel as [Hschool _].
  apply (proj1 (truthy_true _)) in Hschool. apply js_index_In in Hschool.
  rewrite Forall_forall in Hall. specialize (Hall true Hschool). discriminate Hall.
Qed.

(** X5: focusing an order adds at most its own date.  Every option offered
    without a focused order is offered with any focused order, and an option
    offered only because of the focused order is the display form of that
    order's date. *)
Theorem getDateOptions_focus now schedule orders (order : Order FocusDate) cutoffTime :
  (forall r,
     In r (getDateOptions toReadable toISO now schedule orders None cutoffTime) ->
     In r (getDateOptions toReadable toISO now schedule orders (Some order) cutoffTime))
  /\
  (forall r,
     In r (getDateOptions toReadable toISO now schedule orders (Some order) cutoffTime) ->
     In r (getDateOptions toReadable toISO now schedule orders None cutoffTime)
     \/ r = toReadable (toISO (date order))).
Proof.
  split; intros r Hr; apply (proj1 (getDateOptions_In _ _ _ _ _ _)) in Hr;
    destruct Hr as [k [Hk [-> Hel]]].
  - apply (proj2 (getDateOptions_In _ _ _ _ _ _)). exists k. split; [exact Hk |]. split; [reflexivity |].
    unfold eligible in *. simpl focusedOn in Hel. rewrite orb_false_r in Hel.
    apply andb_true_iff in Hel. destruct Hel as [-> ->]. reflexivity.
  - unfold eligible in Hel. apply andb_true_iff in Hel. destruct Hel as [Hschool Hfree].
    apply orb_true_iff in Hfree. destruct Hfree as [Hfree | Hfocus].
    + left. apply (proj2 (getDateOptions_In _ _ _ _ _ _)). exists k. split; [exact Hk |].
      split; [reflexivity |]. unfold eligible. rewrite Hschool, Hfree. reflexivity.
    + right. simpl in Hfocus. apply Z.eqb_eq in Hfocus. rewrite Hfocus. reflexivity.
Qed.

Lemma includes_occupied_ext (orders1 orders2 : Orders) :
  (forall day, occupied orders1 day <-> occupied orders2 day) ->
  forall day, includes (orderDatesOf orders1) day = includes (orderDatesOf orders2) day.
Proof.
  intros Hocc day. apply eq_true_iff_eq.
  rewrite !includes_orderDatesOf. apply Hocc.
Qed.

(** X6: the orders matter through their calendar days only.  Two mappings
    that occupy the same calendar days give the same options, whatever their
    order ids, their enumeration order and the other fields of their
    orders. *)
Theorem getDateOptions_occupied_ext now schedule (orders1 orders2 : Orders)
    focusedOrder cutoffTime :
  (forall day, occupied orders1 day <-> occupied orders2 day) ->
  getDateOptions toReadable toISO now schedule orders1 focusedOrder cutoffTime
  = getDateOptions toReadable toISO now schedule orders2 focusedOrder cutoffTime.
Proof.
  intros Hocc. rewrite !getDateOptions_filter. apply (f_equal (map _)).
  apply filter_ext. intros d. unfold eligible.
  rewrite (includes_occupied_ext orders1 orders2 Hocc). reflexivity.
Qed.

(** X7: more orders, fewer options.  When every calendar day occupied by
    one mapping is occupied by another, every option offered for the second
    is offered for the first (for the same schedule, focus and times). *)
Theorem getDateOptions_orders_antitone now schedule (orders1 orders2 : Orders)
    focusedOrder cutoffTime :
  (forall day, occupied orders1 day -> occupied orders2 day) ->
  forall r,
    In r (getDateOptions toReadable toISO now schedule orders2 focusedOrder cutoffTime) ->
    In r (getDateOptions toReadable toISO now schedule orders1 focusedOrder cutoffTime).
Proof.
  intros Hocc r Hr. apply (proj1 (getDateOptions_In _ _ _ _ _ _)) in Hr. destruct Hr as [k [Hk [-> Hel]]].
  apply (proj2 (getDateOptions_In _ _ _ _ _ _)). exists k. split; [exact Hk |]. split; [reflexivity |].
  rewrite (eligible_true Readable toReadable) in Hel.
  rewrite (eligible_true Readable toReadable).
  destruct Hel as [Hschool [Hfree | Hfocus]].
  - split; [exact Hschool |]. left. intros H1. apply Hfree, Hocc, H1.
  - split; [exact Hschool |]. right. exact Hfocus.
Qed.

Hypothesis toReadable_inj : forall a b : IsoDate, toReadable a = toReadable b -> a = b.

(** X8: after the cutoff, today is out.  When the current moment is strictly
    after the cutoff time, the calendar day of the current moment is not among
    the options, whatever the schedule, the orders and the focus. *)
Theorem getDateOptions_after_cutoff now schedule orders focusedOrder cutoffTime :
  cutoffTime < now ->
  ~ In (toReadable (format_ISO now))
       (getDateOptions toReadable toISO now schedule orders focusedOrder cutoffTime).
Proof.
  intros Hafter Hin. apply (proj1 (getDateOptions_In _ _ _ _ _ _)) in Hin.
  destruct Hin as [k [Hk [Heq _]]]. apply toReadable_inj in Heq.
  unfold scanStart, isAfter in Heq.
  destruct (Z.ltb_spec cutoffTime now); [| lia].
  rewrite add_days_add_days, format_ISO_add_days in Heq. lia.
Qed.

End DateOptionsMore.

Section DateOptionsSameDay.
Import Moment MomentFacts.

Variable Readable : Type.
Variable toReadable : IsoDate -> Readable.
Variable FocusDate : Type.
Variable toISO : FocusDate -> IsoDate.

Lemma map_filter_map_ext {A B C : Type} (f1 f2 : A -> B) (p : B -> bool) (g : B -> C)
    (l : list A) :
  (forall x, In x l -> p (f1 x) = p (f2 x) /\ g (f1 x) = g (f2 x)) ->
  map g (filter p (map f1 l)) = map g (filter p (map f2 l)).
Proof.
  induction l as [| x l IH]; intros Hext; [reflexivity |].
  simpl. destruct (Hext x (or_introl eq_refl)) as [Hp Hg].
  rewrite <- Hp. destruct (p (f1 x)); simpl.
  - rewrite Hg. f_equal. apply IH. intros y Hy. apply Hext. right. exact Hy.
  - apply IH. intros y Hy. apply Hext. right. exact Hy.
Qed.

(** X9: the options change with the calendar day only.  When the
    schedule's anchor is a local midnight, two calls whose scans start on the
    same calendar day, at or after the anchor, return the same options, for
    the same schedule, orders and focus: the time of day does not matter. *)
Theorem getDateOptions_same_day (now1 now2 : Moment.t) schedule orders
    (focusedOrder : option (Order FocusDate)) (cutoffTime1 cutoffTime2 : Moment.t) :
  startOf_day (startDate schedule) = startDate schedule ->
  startDate schedule <= scanStart now1 cutoffTime1 ->
  startDate schedule <= scanStart now2 cutoffTime2 ->
  format_ISO (scanStart now1 cutoffTime1) = format_ISO (scanStart now2 cutoffTime2) ->
  getDateOptions toReadable toISO now1 schedule orders focusedOrder cutoffTime1
  = getDateOptions toReadable toISO now2 schedule orders focusedOrder cutoffTime2.
Proof.
  intros Hmid H1 H2 Hday. rewrite !getDateOptions_filter. unfold candidates.
  apply map_filter_map_ext. intros i Hi.
  assert (Hiso : format_ISO (add_days (Z.of_nat i) (scanStart now1 cutoffTime1))
                 = format_ISO (add_days (Z.of_nat i) (scanStart now2 cutoffTime2)))
    by (rewrite !format_ISO_add_days, Hday; reflexivity).
  split; [| rewrite Hiso; reflexivity].
  unfold eligible. rewrite Hiso. f_equal. f_equal.
  unfold isSchoolDay, getScheduleIndex. f_equal. f_equal.
  rewrite !diff_days_midnight;
    try assumption; try (unfold add_days; pose proof MS_PER_DAY_pos; nia).
  rewrite Hiso. reflexivity.
Qed.

End DateOptionsSameDay.

Section DateOptionsMoreInstances.
Import Moment Scenario.

Lemma getDateOptions_no_school_day_witness :
  getDateOptions toReadable toISO (at_day_hour 2 10)
                 (mkSchedule monday [false; false]) orders None cutoffTime = [].
Proof.
  apply (getDateOptions_no_school_day IsoDate toReadable IsoDate toISO).
  repeat constructor.
Defined.

Lemma getDateOptions_focus_witness :
  In 18495 (getDateOptions toReadable toISO (at_day_hour 2 10) schedule orders
                           None cutoffTime)
  \/ 18495 = toReadable (toISO 18495).
Proof.
  apply (proj2 (getDateOptions_focus IsoDate toReadable IsoDate toISO
                  (at_day_hour 2 10) schedule orders
                  (mkOrder (key fridayOrder) (title fridayOrder) 18495 [])
                  cutoffTime) 18495).
  vm_compute. right. right. left. reflexivity.
Defined.

Lemma occupied_singleton (id : String.string) (order : Order Moment.t) (day : IsoDate) :
  occupied [(id, order)] day <-> format_ISO (date order) = day.
Proof.
  split.
  - intros [id' [order' [Hget Hday]]]. simpl in Hget.
    destruct (String.eqb id id'); [| discriminate Hget].
    injection Hget as <-. exact Hday.
  - intros Hday. exists id, order. simpl. rewrite String.eqb_refl.
    split; [reflexivity | exact Hday].
Qed.

Lemma getDateOptions_occupied_ext_witness :
  getDateOptions toReadable toISO (at_day_hour 2 10) schedule
                 orders None cutoffTime
  = getDateOptions toReadable toISO (at_day_hour 2 10) schedule
                 [(key secondFridayOrder, secondFridayOrder)] None cutoffTime.
Proof.
  apply (getDateOptions_occupied_ext IsoDate toReadable IsoDate toISO).
  intros day. unfold orders. rewrite !occupied_singleton.
  split; intros H; exact H.
Defined.

Lemma getDateOptions_orders_antitone_witness :
  In 18494 (getDateOptions toReadable toISO (at_day_hour 2 10) schedule
                           [] None cutoffTime).
Proof.
  apply (getDateOptions_orders_antitone IsoDate toReadable IsoDate toISO
           (at_day_hour 2 10) schedule [] orders None cutoffTime).
  - intros day [id [order [Hget _]]]. discriminate Hget.
  - vm_compute. right. left. reflexivity.
Defined.

Lemma getDateOptions_after_cutoff_witness :
  ~ In (toReadable (format_ISO (at_day_hour 2 16)))
       (getDateOptions toReadable toISO (at_day_hour 2 16) schedule orders None
                       cutoffTime).
Proof.
  apply (getDateOptions_after_cutoff IsoDate toReadable IsoDate toISO
           ScenarioFacts.scenario_toReadable_inj).
  reflexivity.
Defined.

Lemma getDateOptions_same_day_witness :
  getDateOptions toReadable toISO (at_day_hour 2 7) schedule orders None cutoffTime
  = getDateOptions toReadable toISO (at_day_hour 1 20) schedule orders None
                   (at_day_hour 1 14).
Proof.
  apply (getDateOptions_same_day IsoDate toReadable IsoDate toISO).
  - reflexivity.
  - vm_compute. discriminate.
  - vm_compute. discriminate.
  - reflexivity.
Defined.

End DateOptionsMoreInstances.

(** ** The home screen's orders, beyond filtering and sorting *)

Section ListFacts.

Variables A B : Type.
Variable field : A -> B.
Variable keep : A -> bool.

Lemma filter_perm :
  forall l l' : list A, Permutation l l' -> Permutation (filter keep l) (filter keep l').
Proof.
  intros l l' Hperm.
  induction Hperm as [| x l l' _ IH | x y l | l l' l'' _ IH1 _ IH2]; simpl.
  - constructor.
  - destruct (keep x); [constructor |]; exact IH.
  - destruct (keep x), (keep y); try reflexivity. apply perm_swap.
  - etransitivity; eassumption.
Qed.

(** In a list without two elements of the same field, the field tells the
    elements apart. *)
Lemma field_inj_on :
  forall (l : list A) (a b : A),
    NoDup (map field l) -> In a l -> In b l -> field a = field b -> a = b.
Proof.
  intros l a b. induction l as [| x l IH]; simpl; [contradiction |].
  intros Hnd Ha Hb Heq.
  inversion Hnd as [| ? ? Hfresh Hnd']; subst.
  destruct Ha as [-> | Ha], Hb as [-> | Hb].
  - reflexivity.
  - exfalso. apply Hfresh. rewrite Heq. apply in_map. exact Hb.
  - exfalso. apply Hfresh. rewrite <- Heq. apply in_map. exact Ha.
  - apply IH; assumption.
Qed.

Lemma filter_keeps_distinct_fields :
  forall l : list A, NoDup (map field l) -> NoDup (map field (filter keep l)).
Proof.
  intros l Hnd. induction l as [| x l IH]; [exact Hnd |].
  simpl in Hnd. apply NoDup_cons_iff in Hnd. destruct Hnd as [Hfresh Hnd].
  simpl. destruct (keep x); [| apply IH; exact Hnd].
  simpl. apply NoDup_cons_iff. split; [| apply IH; exact Hnd].
  intros Hin. apply Hfresh. apply in_map_iff in Hin.
  destruct Hin as [y [Hy Hin]]. apply filter_In in Hin.
  apply in_map_iff. exists y. split; [exact Hy | apply Hin].
Qed.

End ListFacts.

Section OrdersArrMore.
Import Moment MomentFacts.

Lemma startOf_day_le (m : Moment.t) : startOf_day m <= m.
Proof.
  unfold startOf_day. pose proof (Z.mod_pos_bound m MS_PER_DAY MS_PER_DAY_pos). lia.
Qed.

Lemma startOf_day_mono (a b : Moment.t) : a <= b -> startOf_day a <= startOf_day b.
Proof.
  intros Hab. unfold startOf_day.
  pose proof (Z.div_mod a MS_PER_DAY ltac:(discriminate)).
  pose proof (Z.div_mod b MS_PER_DAY ltac:(discriminate)).
  pose proof (Z.div_le_mono a b MS_PER_DAY MS_PER_DAY_pos Hab).
  pose proof MS_PER_DAY_pos. nia.
Qed.

Lemma referenceMoment_bounds (now cutoffTime : Moment.t) :
  startOf_day now <= referenceMoment now cutoffTime <= now.
Proof.
  unfold referenceMoment. pose proof (startOf_day_le now).
  destruct (isBefore now cutoffTime); lia.
Qed.

Lemma referenceMoment_mono (now1 now2 cutoffTime : Moment.t) :
  now1 <= now2 -> referenceMoment now1 cutoffTime <= referenceMoment now2 cutoffTime.
Proof.
  intros Hle. unfold referenceMoment, isBefore.
  pose proof (startOf_day_mono now1 now2 Hle).
  pose proof (startOf_day_le now1). pose proof (startOf_day_le now2).
  destruct (Z.ltb_spec now1 cutoffTime), (Z.ltb_spec now2 cutoffTime); lia.
Qed.

(** Two lists of orders in chronological order, with the same orders and no
    date used twice, are the same list. *)
Lemma sorted_by_date_unique (l1 : list (Order Moment.t)) :
  forall l2,
    StronglySorted notAfter l1 -> StronglySorted notAfter l2 ->
    Permutation l1 l2 -> NoDup (map date l1) -> l1 = l2.
Proof.
  induction l1 as [| a l1 IH]; intros l2 Hs1 Hs2 Hperm Hnd.
  - apply Permutation_nil in Hperm. symmetry. exact Hperm.
  - destruct l2 as [| b l2];
      [apply Permutation_sym, Permutation_nil in Hperm; discriminate Hperm |].
    apply StronglySorted_inv in Hs1. destruct Hs1 as [Hs1 Ha].
    apply StronglySorted_inv in Hs2. destruct Hs2 as [Hs2 Hb].
    rewrite Forall_forall in Ha, Hb.
    assert (Hba : In b (a :: l1))
      by (apply (Permutation_in _ (Permutation_sym Hperm)); left; reflexivity).
    assert (Hab : In a (b :: l2))
      by (apply (Permutation_in _ Hperm); left; reflexivity).
    assert (Heq : a = b).
    { apply (field_inj_on _ _ date (a :: l1)); [exact Hnd | left; reflexivity | exact Hba |].
      assert (date a <= date b)
        by (destruct Hba as [-> | Hba]; [lia | apply (Ha b Hba)]).
      assert (date b <= date a)
        by (destruct Hab as [-> | Hab]; [lia | apply (Hb a Hab)]).
      lia. }
    subst b. f_equal. apply IH; try assumption.
    + eapply Permutation_cons_inv. exact Hperm.
    + simpl in Hnd. inversion Hnd. assumption.
Qed.

Variable Readable : Type.
Variable format_READABLE : Moment.t -> Readable.

(** Membership in the result, read off the pipeline. *)
Lemma getOrdersArr_In now orders cutoffTime (r : Order Readable) :
  In r (getOrdersArr format_READABLE now orders cutoffTime) <->
  exists order,
    In order (Object_values orders) /\
    referenceMoment now cutoffTime <= date order /\
    r = displayed format_READABLE order.
Proof.
  unfold getOrdersArr. rewrite in_map_iff. split.
  - intros [order [<- Hin]].
    apply (Permutation_in _ (js_sort_perm _ compareDates _)) in Hin.
    apply filter_In in Hin. destruct Hin as [Hin Hge].
    unfold isSameOrAfter in Hge. apply Z.leb_le in Hge.
    exists order. split; [exact Hin |]. split; [exact Hge | reflexivity].
  - intros [order [Hin [Hge ->]]]. exists order. split; [reflexivity |].
    apply (Permutation_in _ (Permutation_sym (js_sort_perm _ compareDates _))).
    apply filter_In. split; [exact Hin |].
    unfold isSameOrAfter. apply Z.leb_le. exact Hge.
Qed.

(** X10: no past order, every future order.  Whatever the cutoff time, every
    order of the result is an order of the mapping dated today's midnight or
    later, and every order of the mapping dated at or after the current moment
    is in the result. *)
Theorem getOrdersArr_today_or_later now orders cutoffTime :
  (forall r, In r (getOrdersArr format_READABLE now orders cutoffTime) ->
     exists order,
       In order (Object_values orders) /\
       startOf_day now <= date order /\
       r = displayed format_READABLE order)
  /\
  (forall order,
     In order (Object_values orders) -> now <= date order ->
     In (displayed format_READABLE order)
        (getOrdersArr format_READABLE now orders cutoffTime)).
Proof.
  pose proof (referenceMoment_bounds now cutoffTime) as Hb. split.
  - intros r Hr. apply (proj1 (getOrdersArr_In _ _ _ _)) in Hr.
    destruct Hr as [order [Hin [Hge ->]]].
    exists order. split; [exact Hin |]. split; [lia | reflexivity].
  - intros order Hin Hge. apply (proj2 (getOrdersArr_In _ _ _ _)).
    exists order. split; [exact Hin |]. split; [lia | reflexivity].
Qed.

(** X11: an order that has left the home screen does not come back.  For
    a fixed mapping and cutoff time, everything in the result at a later
    moment is in the result at an earlier moment. *)
Theorem getOrdersArr_shrinks (now1 now2 : Moment.t) orders cutoffTime :
  now1 <= now2 ->
  forall r,
    In r (getOrdersArr format_READABLE now2 orders cutoffTime) ->
    In r (getOrdersArr format_READABLE now1 orders cutoffTime).
Proof.
  intros Hle r Hr. apply (proj1 (getOrdersArr_In _ _ _ _)) in Hr.
  destruct Hr as [order [Hin [Hge ->]]].
  apply (proj2 (getOrdersArr_In _ _ _ _)). exists order.
  pose proof (referenceMoment_mono now1 now2 cutoffTime Hle).
  split; [exact Hin |]. split; [lia | reflexivity].
Qed.

(** X12: the result does not depend on the enumeration order of the
    mapping.  When no two orders of the mapping have the same date, a mapping
    with the same properties in another order gives the same list. *)
Theorem getOrdersArr_enumeration now (orders1 orders2 : Orders) cutoffTime :
  Permutation orders1 orders2 ->
  NoDup (map date (Object_values orders1)) ->
  getOrdersArr format_READABLE now orders1 cutoffTime
  = getOrdersArr format_READABLE now orders2 cutoffTime.
Proof.
  intros Hperm Hnd. unfold getOrdersArr. apply (f_equal (map _)).
  set (keep := fun order : Order Moment.t =>
                 let now := referenceMoment now cutoffTime in
                 isSameOrAfter (date order) now).
  apply sorted_by_date_unique.
  - apply js_sort_sorted.
  - apply js_sort_sorted.
  - rewrite !js_sort_perm. apply filter_perm.
    unfold Object_values. apply Permutation_map. exact Hperm.
  - apply (Permutation_NoDup
             (Permutation_map date (Permutation_sym (js_sort_perm _ compareDates _)))).
    apply filter_keeps_distinct_fields. exact Hnd.
Qed.

(** X13: the home screen and the date options agree on today.  For a mapping
    whose orders have pairwise distinct keys, a current moment later than
    today's midnight and different from the cutoff time, an order dated
    today's midnight is in the result of [getOrdersArr] if and only if the
    scan of [getDateOptions] starts today. *)
Theorem getOrdersArr_today_scanStart now orders cutoffTime (order : Order Moment.t) :
  NoDup (map key (Object_values orders)) ->
  In order (Object_values orders) ->
  date order = startOf_day now ->
  startOf_day now < now ->
  now <> cutoffTime ->
  (In (displayed format_READABLE order)
      (getOrdersArr format_READABLE now orders cutoffTime)
   <-> scanStart now cutoffTime = now).
Proof.
  intros Hkeys Hin Hdate Hlate Hne.
  assert (Hstart : scanStart now cutoffTime = now <-> now < cutoffTime).
  { unfold scanStart, isAfter, add_days.
    destruct (Z.ltb_spec cutoffTime now); pose proof MS_PER_DAY_pos; lia. }
  rewrite Hstart. split.
  - intros Hr. apply (proj1 (getOrdersArr_In _ _ _ _)) in Hr.
    destruct Hr as [order' [Hin' [Hge Heq]]].
    assert (order = order').
    { apply (field_inj_on _ _ key (Object_values orders)); try assumption.
      apply (f_equal key) in Heq. exact Heq. }
    subst order'. unfold referenceMoment, isBefore in Hge.
    destruct (Z.ltb_spec now cutoffTime); [assumption | lia].
  - intros Hbefore. apply (proj2 (getOrdersArr_In _ _ _ _)). exists order.
    split; [exact Hin |]. split; [| reflexivity].
    unfold referenceMoment, isBefore.
    destruct (Z.ltb_spec now cutoffTime); lia.
Qed.

End OrdersArrMore.

Section OrdersArrMoreInstances.
Import Moment Scenario.

Lemma getOrdersArr_today_or_later_witness :
  In (displayed format_READABLE secondFridayOrder)
     (getOrdersArr format_READABLE (at_day_hour 2 16) homeOrders cutoffTime).
Proof.
  apply (proj2 (getOrdersArr_today_or_later Moment.t format_READABLE
                  (at_day_hour 2 16) homeOrders cutoffTime)).
  - vm_compute. tauto.
  - vm_compute. discriminate.
Defined.

Lemma getOrdersArr_shrinks_witness :
  In (displayed format_READABLE fridayOrder)
     (getOrdersArr format_READABLE (at_day_hour 2 10) homeOrders cutoffTime).
Proof.
  apply (getOrdersArr_shrinks Moment.t format_READABLE
           (at_day_hour 2 10) (at_day_hour 2 16) homeOrders cutoffTime).
  - vm_compute. discriminate.
  - vm_compute. left. reflexivity.
Defined.

Lemma getOrdersArr_enumeration_witness :
  getOrdersArr format_READABLE (at_day_hour 2 10)
               [(key mondayOrder, mondayOrder); (key wednesdayOrder, wednesdayOrder);
                (key fridayOrder, fridayOrder)] cutoffTime
  = getOrdersArr format_READABLE (at_day_hour 2 10)
               [(key fridayOrder, fridayOrder); (key wednesdayOrder, wednesdayOrder);
                (key mondayOrder, mondayOrder)] cutoffTime.
Proof.
  apply (getOrdersArr_enumeration Moment.t format_READABLE).
  - etransitivity; [apply perm_skip, perm_swap |].
    etransitivity; [apply perm_swap |]. apply perm_skip, perm_swap.
  - vm_compute. repeat constructor; simpl; intuition discriminate.
Defined.

Lemma getOrdersArr_today_scanStart_witness :
  In (displayed format_READABLE wednesdayOrder)
     (getOrdersArr format_READABLE (at_day_hour 2 10) homeOrders cutoffTime)
  <-> scanStart (at_day_hour 2 10) cutoffTime = at_day_hour 2 10.
Proof.
  apply (getOrdersArr_today_scanStart Moment.t format_READABLE
           (at_day_hour 2 10) homeOrders cutoffTime wednesdayOrder).
  - vm_compute. repeat constructor; simpl; intuition discriminate.
  - vm_compute. tauto.
  - reflexivity.
  - reflexivity.
  - vm_compute. discriminate.
Defined.

End OrdersArrMoreInstances.

(** ** Error messages *)

Section ErrorMessages.
Import Firebase String.StringSyntax.
Local Open Scope string_scope.

(** Case analysis on a code along the [case] labels of a [switch]. *)
Ltac switch_cases c :=
  repeat match goal with
         | |- context [String.eqb c ?label] =>
             destruct (String.eqb_spec c label) as [-> | ?]; simpl
         | H : context [String.eqb c ?label] |- _ =>
             destruct (String.eqb_spec c label) as [-> | ?]; simpl in H
         end.

Lemma hasCodeIn_Some (codes : list String.string) (c : String.string) :
  hasCodeIn codes (mkFirebaseError (Some c)) <-> In c codes.
Proof.
  unfold hasCodeIn. simpl. split.
  - intros [c' [Heq Hin]]. injection Heq as <-. exact Hin.
  - intros Hin. exists c. split; [reflexivity | exact Hin].
Qed.

Lemma hasCodeIn_None (codes : list String.string) :
  ~ hasCodeIn codes (mkFirebaseError None).
Proof. intros [c [Heq _]]. discriminate Heq. Qed.

(** X14: [authErrorMessage] answers with the generic message exactly for
    the errors whose code is none of its four known codes (an absent code
    included), and an error with a known code gets a message that no error
    with another code gets. *)
Theorem authErrorMessage_identifies :
  (forall error,
     authErrorMessage error = genericMessage <-> ~ hasCodeIn authCodes error)
  /\
  (forall error1 error2,
     hasCodeIn authCodes error1 ->
     authErrorMessage error1 = authErrorMessage error2 ->
     code error1 = code error2).
Proof.
  split.
  - intros [[c |]]; [| split; [intros _; apply hasCodeIn_None | reflexivity]].
    rewrite hasCodeIn_Some. unfold authErrorMessage, genericMessage, authCodes. simpl.
    switch_cases c;
      (split; [intros H; try discriminate H; intros Hin; simpl in Hin; intuition congruence
              | intros H; try reflexivity; exfalso; apply H; simpl; tauto]).
  - intros [[c1 |]] [[c2 |]] Hknown; try (exfalso; revert Hknown; apply hasCodeIn_None);
      rewrite hasCodeIn_Some in Hknown;
      unfold authErrorMessage, authCodes in *; simpl in *.
    + switch_cases c1; switch_cases c2; intros H;
        try reflexivity; try discriminate H; exfalso; intuition congruence.
    + switch_cases c1; intros H;
        try discriminate H; exfalso; intuition congruence.
Qed.

(** X15: [firestoreErrorMessage] answers with the generic message exactly
    for the errors whose code is none of its seven known codes (an absent
    code included), and an error with a known code gets a message that no
    error with another code gets. *)
Theorem firestoreErrorMessage_identifies :
  (forall error,
     firestoreErrorMessage error = genericMessage <-> ~ hasCodeIn firestoreCodes error)
  /\
  (forall error1 error2,
     hasCodeIn firestoreCodes error1 ->
     firestoreErrorMessage error1 = firestoreErrorMessage error2 ->
     code error1 = code error2).
Proof.
  split.
  - intros [[c |]]; [| split; [intros _; apply hasCodeIn_None | reflexivity]].
    rewrite hasCodeIn_Some.
    unfold firestoreErrorMessage, genericMessage, firestoreCodes. simpl.
    switch_cases c;
      (split; [intros H; try discriminate H; intros Hin; simpl in Hin; intuition congruence
              | intros H; try reflexivity; exfalso; apply H; simpl; tauto]).
  - intros [[c1 |]] [[c2 |]] Hknown; try (exfalso; revert Hknown; apply hasCodeIn_None);
      rewrite hasCodeIn_Some in Hknown;
      unfold firestoreErrorMessage, firestoreCodes in *; simpl in *.
    + switch_cases c1; switch_cases c2; intros H;
        try reflexivity; try discriminate H; exfalso; intuition congruence.
    + switch_cases c1; intros H;
        try discriminate H; exfalso; intuition congruence.
Qed.

End ErrorMessages.

(** ** The ingredient line of an order card *)

Section IngredientLine.
Import Ascii Card String.StringSyntax.
Local Open Scope string_scope.

Ltac all_chars c :=
  destruct c as [[|] [|] [|] [|] [|] [|] [|] [|]]; reflexivity.

Lemma upperChar_not_lower (c : ascii) : isLowerLetter (upperChar c) = false.
Proof. all_chars c. Qed.

Lemma lowerChar_not_upper (c : ascii) : isUpperLetter (lowerChar c) = false.
Proof. all_chars c. Qed.

Lemma upperChar_lowerChar (c : ascii) : upperChar (lowerChar c) = upperChar c.
Proof. all_chars c. Qed.

Lemma lowerChar_lowerChar (c : ascii) : lowerChar (lowerChar c) = lowerChar c.
Proof. all_chars c. Qed.

Lemma upperChar_upperChar (c : ascii) : upperChar (upperChar c) = upperChar c.
Proof. all_chars c. Qed.

Lemma toLowerCase_idem (s : String.string) : toLowerCase (toLowerCase s) = toLowerCase s.
Proof.
  induction s as [| c s IH]; simpl; [reflexivity |].
  rewrite lowerChar_lowerChar, IH. reflexivity.
Qed.

Lemma toLowerCase_length (s : String.string) :
  String.length (toLowerCase s) = String.length s.
Proof. induction s as [| c s IH]; simpl; [reflexivity | rewrite IH; reflexivity]. Qed.

Lemma toLowerCase_append (s1 s2 : String.string) :
  toLowerCase (String.append s1 s2)
  = String.append (toLowerCase s1) (toLowerCase s2).
Proof. induction s1 as [| c s1 IH]; simpl; [reflexivity | rewrite IH; reflexivity]. Qed.

Lemma toLowerCase_join (a : list String.string) :
  toLowerCase (join ", " a) = join ", " (map toLowerCase a).
Proof.
  unfold join. induction a as [| x [| y a] IH]; try reflexivity.
  change (String.concat ", " (x :: y :: a))
    with (String.append x (String.append ", " (String.concat ", " (y :: a)))).
  change (String.concat ", " (map toLowerCase (x :: y :: a)))
    with (String.append (toLowerCase x)
            (String.append ", " (String.concat ", " (map toLowerCase (y :: a))))).
  rewrite !toLowerCase_append, IH. reflexivity.
Qed.

(** The [for ... in] loop collects the texts of the non-empty categories. *)
Lemma fold_pushIngredient (ingredients : Ingredients) :
  forall allIngredients,
    fold_left pushIngredient ingredients allIngredients
    = allIngredients ++ map ingredientText (filter nonEmpty ingredients).
Proof.
  induction ingredients as [| [category ingredient] rest IH]; intros allIngredients.
  - simpl. rewrite app_nil_r. reflexivity.
  - simpl fold_left. rewrite IH. simpl filter.
    unfold pushIngredient at 1, nonEmpty at 2. simpl snd.
    destruct (0 <? js_length ingredient)%nat; [| reflexivity].
    simpl map. unfold ingredientText at 2. simpl snd.
    destruct ingredient; rewrite <- app_assoc; reflexivity.
Qed.

(** The line is the capitalised join of the collected texts. *)
Lemma getIngredientStr_texts (ingredients : Ingredients) :
  getIngredientStr ingredients
  = let ingredientStr := join ", " (map ingredientText (filter nonEmpty ingredients)) in
    String.append (toUpperCase (charAt ingredientStr 0))
                  (toLowerCase (slice ingredientStr 1)).
Proof. unfold getIngredientStr. rewrite fold_pushIngredient. reflexivity. Qed.

Lemma filter_idem {A : Type} (f : A -> bool) (l : list A) :
  filter f (filter f l) = filter f l.
Proof.
  induction l as [| x l IH]; simpl; [reflexivity |].
  destruct (f x) eqn:Hfx; simpl; [rewrite Hfx, IH; reflexivity | exact IH].
Qed.

(** Capitalising a string: what the last line of [getIngredientStr] does. *)
Lemma capitalise_cases (s : String.string) :
  String.append (toUpperCase (charAt s 0)) (toLowerCase (slice s 1))
  = match s with
    | String.EmptyString => String.EmptyString
    | String.String c rest => String.String (upperChar c) (toLowerCase rest)
    end.
Proof. destruct s as [| c rest]; reflexivity. Qed.

(** X16: empty selections leave no trace.  The categories whose value is an
    empty string or an empty array contribute nothing, not even a separator:
    the line is that of the ingredients without them. *)
Theorem getIngredientStr_skips_empty (ingredients : Ingredients) :
  getIngredientStr ingredients = getIngredientStr (filter nonEmpty ingredients).
Proof.
  rewrite !getIngredientStr_texts, filter_idem. reflexivity.
Qed.

(** X17: nothing selected, nothing shown.  When every category has an empty
    string or an empty array as its value (in particular when there is no
    category), the line is the empty string. *)
Theorem getIngredientStr_all_empty (ingredients : Ingredients) :
  Forall (fun property => js_length (snd property) = 0%nat) ingredients ->
  getIngredientStr ingredients = String.EmptyString.
Proof.
  intros Hall. rewrite getIngredientStr_texts.
  replace (filter nonEmpty ingredients) with (@nil (String.string * Ingredient));
    [reflexivity |].
  symmetry. induction Hall as [| property rest Hlen _ IH]; simpl; [reflexivity |].
  unfold nonEmpty at 1. rewrite Hlen. simpl. exact IH.
Qed.

(** X18: the line is capitalised.  Its first character is not a lower-case
    letter and no later character is an upper-case letter. *)
Theorem getIngredientStr_capitalised (ingredients : Ingredients) :
  match getIngredientStr ingredients with
  | String.EmptyString => True
  | String.String c rest =>
      isLowerLetter c = false /\
      Forall (fun c' => isUpperLetter c' = false) (chars rest)
  end.
Proof.
  rewrite getIngredientStr_texts. cbv zeta. rewrite capitalise_cases.
  destruct (join ", " (map ingredientText (filter nonEmpty ingredients)))
    as [| c rest]; [exact I |].
  split; [apply upperChar_not_lower |].
  unfold chars. induction rest as [| c' rest IH]; simpl; constructor.
  - apply lowerChar_not_upper.
  - exact IH.
Qed.

Lemma nonEmpty_lowerIngredient (category : String.string) (ingredient : Ingredient) :
  nonEmpty (category, lowerIngredient ingredient) = nonEmpty (category, ingredient).
Proof.
  unfold nonEmpty. simpl snd. f_equal.
  destruct ingredient; simpl; [apply toLowerCase_length | apply length_map].
Qed.

Lemma ingredientText_lowerIngredient (category : String.string) (ingredient : Ingredient) :
  ingredientText (category, lowerIngredient ingredient)
  = toLowerCase (ingredientText (category, ingredient)).
Proof.
  unfold ingredientText. simpl snd.
  destruct ingredient; simpl; [reflexivity | symmetry; apply toLowerCase_join].
Qed.

Lemma nonEmpty_lowerIngredients (ingredients : Ingredients) :
  map ingredientText (filter nonEmpty (lowerIngredients ingredients))
  = map toLowerCase (map ingredientText (filter nonEmpty ingredients)).
Proof.
  unfold lowerIngredients.
  induction ingredients as [| [category ingredient] rest IH]; [reflexivity |].
  cbn [map filter fst snd]. rewrite nonEmpty_lowerIngredient.
  destruct (nonEmpty (category, ingredient)); [| exact IH].
  cbn [map]. rewrite IH, ingredientText_lowerIngredient. reflexivity.
Qed.

(** X19: the letter case of the stored values does not matter.  Putting
    every string of the ingredients in lower case leaves the line
    unchanged. *)
Theorem getIngredientStr_case_insensitive (ingredients : Ingredients) :
  getIngredientStr (lowerIngredients ingredients) = getIngredientStr ingredients.
Proof.
  rewrite !getIngredientStr_texts. cbv zeta. rewrite !capitalise_cases.
  rewrite nonEmpty_lowerIngredients, <- toLowerCase_join.
  destruct (join ", " (map ingredientText (filter nonEmpty ingredients)))
    as [| c rest]; simpl; [reflexivity |].
  rewrite upperChar_lowerChar, toLowerCase_idem. reflexivity.
Qed.

(** X20: the line is a fixed point.  An order whose only ingredient is the
    line of another order, as one string, has that same line. *)
Theorem getIngredientStr_idempotent (category : String.string) (ingredients : Ingredients) :
  getIngredientStr [(category, Str (getIngredientStr ingredients))]
  = getIngredientStr ingredients.
Proof.
  rewrite (getIngredientStr_texts ingredients). cbv zeta. rewrite capitalise_cases.
  destruct (join ", " (map ingredientText (filter nonEmpty ingredients)))
    as [| c rest]; [reflexivity |].
  rewrite getIngredientStr_texts. cbv zeta. rewrite capitalise_cases.
  simpl. rewrite upperChar_upperChar, toLowerCase_idem. reflexivity.
Qed.

Lemma append_assoc (s1 s2 s3 : String.string) :
  String.append (String.append s1 s2) s3 = String.append s1 (String.append s2 s3).
Proof. induction s1 as [| c s1 IH]; simpl; [reflexivity | rewrite IH; reflexivity]. Qed.

Lemma join_cons (sep x : String.string) (l : list String.string) :
  l <> [] -> join sep (x :: l) = String.append x (String.append sep (join sep l)).
Proof. destruct l; [contradiction | reflexivity]. Qed.

(** Behind a prefix, a non-empty list counts through its join only. *)
Lemma join_app_congr (sep : String.string) (xs l l' : list String.string) :
  l <> [] -> l' <> [] -> join sep l = join sep l' ->
  join sep (xs ++ l) = join sep (xs ++ l').
Proof.
  intros Hl Hl' Heq. induction xs as [| x xs IH]; [exact Heq |].
  simpl app. rewrite !join_cons.
  - rewrite IH. reflexivity.
  - destruct xs; [exact Hl' | discriminate].
  - destruct xs; [exact Hl | discriminate].
Qed.

Lemma join_join_cons (sep : String.string) (a ys : list String.string) :
  a <> [] -> join sep (join sep a :: ys) = join sep (a ++ ys).
Proof.
  intros Ha. destruct ys as [| y ys]; [rewrite app_nil_r; reflexivity |].
  rewrite join_cons by discriminate.
  induction a as [| x a IH]; [contradiction |].
  destruct a as [| x' a].
  - simpl app. rewrite (join_cons sep x (y :: ys)) by discriminate. reflexivity.
  - change ((x :: x' :: a) ++ y :: ys) with (x :: ((x' :: a) ++ y :: ys)).
    rewrite (join_cons sep x (x' :: a)) by discriminate.
    rewrite (join_cons sep x ((x' :: a) ++ y :: ys)) by discriminate.
    rewrite <- IH by discriminate. rewrite !append_assoc. reflexivity.
Qed.

Lemma texts_of_strings (entries : Ingredients) :
  forall a : list String.string,
    map snd entries = map Str a ->
    Forall (fun s => s <> String.EmptyString) a ->
    map ingredientText (filter nonEmpty entries) = a.
Proof.
  induction entries as [| [category ingredient] entries IH]; intros [| s a] Hmap Hall;
    try discriminate Hmap; [reflexivity |].
  simpl in Hmap. injection Hmap as -> Hmap.
  inversion Hall as [| ? ? Hs Hall']; subst.
  simpl filter. unfold nonEmpty at 1. simpl snd. simpl js_length.
  destruct s as [| c s]; [contradiction |].
  simpl. f_equal. apply IH; assumption.
Qed.

(** X21: several selections read like several categories.  A category
    whose value is an array of non-empty strings contributes what categories
    holding these strings one by one, at the same place, contribute. *)
Theorem getIngredientStr_array_flattens (before after entries : Ingredients)
    (category : String.string) (a : list String.string) :
  map snd entries = map Str a ->
  Forall (fun s => s <> String.EmptyString) a ->
  getIngredientStr (before ++ (category, Arr a) :: after)
  = getIngredientStr (before ++ entries ++ after).
Proof.
  intros Hmap Hall.
  assert (Hjoin :
            join ", " (map ingredientText
                           (filter nonEmpty (before ++ (category, Arr a) :: after)))
            = join ", " (map ingredientText
                             (filter nonEmpty (before ++ entries ++ after)))).
  { rewrite !filter_app, !map_app, (texts_of_strings entries a Hmap Hall).
    destruct a as [| s a]; [reflexivity |].
    change (filter nonEmpty ((category, Arr (s :: a)) :: after))
      with ((category, Arr (s :: a)) :: filter nonEmpty after).
    change (map ingredientText ((category, Arr (s :: a)) :: filter nonEmpty after))
      with (join ", " (s :: a) :: map ingredientText (filter nonEmpty after)).
    apply join_app_congr; [discriminate | discriminate |].
    apply join_join_cons. discriminate. }
  rewrite !getIngredientStr_texts. cbv zeta. rewrite Hjoin. reflexivity.
Qed.

End IngredientLine.

Section IngredientLineInstances.
Import Card String.StringSyntax.
Local Open Scope string_scope.

(** An order card: bread, two cheeses, no condiment. *)
Example club_line :
  getIngredientStr
    [("bread", Str "Dutch Crunch"); ("cheese", Arr ["Swiss"; "Cheddar"]);
     ("condiments", Arr []); ("comment", Str (String.EmptyString))]
  = "Dutch crunch, swiss, cheddar".
Proof. reflexivity. Qed.

Lemma getIngredientStr_all_empty_witness :
  getIngredientStr [("condiments", Arr []); ("comment", Str String.EmptyString)]
  = String.EmptyString.
Proof.
  apply (getIngredientStr_all_empty
           [("condiments", Arr []); ("comment", Str String.EmptyString)]).
  repeat constructor.
Defined.

Lemma getIngredientStr_array_flattens_witness :
  getIngredientStr ([("bread", Str "Wheat")]
                    ++ ("cheese", Arr ["Swiss"; "Cheddar"]) :: [("meat", Str "Ham")])
  = getIngredientStr ([("bread", Str "Wheat")]
                      ++ [("cheese", Str "Swiss"); ("cheese2", Str "Cheddar")]
                      ++ [("meat", Str "Ham")]).
Proof.
  apply (getIngredientStr_array_flattens
           [("bread", Str "Wheat")] [("meat", Str "Ham")]
           [("cheese", Str "Swiss"); ("cheese2", Str "Cheddar")]
           "cheese" ["Swiss"; "Cheddar"]).
  - reflexivity.
  - repeat constructor; discriminate.
Defined.

End IngredientLineInstances.

Section ErrorMessagesInstances.
Import Firebase String.StringSyntax.
Local Open Scope string_scope.

Lemma authErrorMessage_identifies_witness :
  ~ hasCodeIn authCodes (mkFirebaseError (Some "auth/too-many-requests")) /\
  code (mkFirebaseError (Some "auth/wrong-password"))
  = code (mkFirebaseError (Some "auth/wrong-password")).
Proof.
  split.
  - apply (proj1 (proj1 authErrorMessage_identifies
                    (mkFirebaseError (Some "auth/too-many-requests")))).
    reflexivity.
  - apply (proj2 authErrorMessage_identifies).
    + exists "auth/wrong-password". split; [reflexivity |].
      right. right. left. reflexivity.
    + reflexivity.
Defined.

Lemma firestoreErrorMessage_identifies_witness :
  ~ hasCodeIn firestoreCodes (mkFirebaseError (Some "unavailable")) /\
  code (mkFirebaseError (Some "data-loss"))
  = code (mkFirebaseError (Some "data-loss")).
Proof.
  split.
  - apply (proj1 (proj1 firestoreErrorMessage_identifies
                    (mkFirebaseError (Some "unavailable")))).
    reflexivity.
  - apply (proj2 firestoreErrorMessage_identifies).
    + exists "data-loss". split; [reflexivity |].
      do 5 right. left. reflexivity.
    + reflexivity.
Defined.

End ErrorMessagesInstances.
